(** * bt-nes-advantage: the HID report encoder, the device state machine and
      the session loop of the firmware, embedded in Rocq.

    Sources embedded here:
    - [src/include/BLEJoystick.h], [src/src/BLEJoystick.cpp]: class
      [BLEJoystick] (module [BLEJoystick] below);
    - [src/src/main.cpp]: the globals, [setup], [loop], [checkTimers] and
      the state callback.

    Integers are [Z] with the C++ conversions written out ([to_uint8],
    [to_uint32]).  Code with effects runs in the monad [M]: it threads the
    program state, may end the program (deep sleep never returns), and
    records what reaches the outside world in a trace of [Event]s.  Serial
    diagnostics are left out. *)

From Stdlib Require Import ZArith List Bool Lia.
Import ListNotations.
Local Open Scope Z_scope.

(** ** Machine integers *)

(** Conversion to [uint8_t]. *)
Definition to_uint8 (z : Z) : Z := z mod 256.

(** Conversion to [unsigned long], 32 bits wide on the ESP32. *)
Definition to_uint32 (z : Z) : Z := z mod 2 ^ 32.

(** ** What the program does to the outside world *)

Inductive Event : Type :=
| AdvertisingStart                     (* pAdvertising->start() *)
| AdvertisingStop                      (* getAdvertising()->stop() *)
| InputNotify (report : list Z)        (* pInputCharacteristic: setValue + notify *)
| BatteryNotify (level : Z)            (* pBatteryCharacteristic: setValue + notify *)
| CallbackInvoked (state : Z)          (* stateChangeCallback() is called; deviceState at the call *)
| DigitalWrite (pin : Z) (level : bool)
| DeepSleep.                           (* esp_deep_sleep_start() *)

(** ** The monad: state, program end, trace *)

Definition M (S A : Type) : Type := S -> option A * S * list Event.

Definition ret {S A : Type} (a : A) : M S A :=
  fun s => (Some a, s, []).

Definition bind {S A B : Type} (m : M S A) (k : A -> M S B) : M S B :=
  fun s =>
    match m s with
    | (Some a, s1, t1) =>
        match k a s1 with
        | (r, s2, t2) => (r, s2, t1 ++ t2)
        end
    | (None, s1, t1) => (None, s1, t1)
    end.

Definition gets {S A : Type} (f : S -> A) : M S A :=
  fun s => (Some (f s), s, []).

Definition modify {S : Type} (f : S -> S) : M S unit :=
  fun s => (Some tt, f s, []).

Definition emit {S : Type} (e : Event) : M S unit :=
  fun s => (Some tt, s, [e]).

Declare Scope monad_scope.
Delimit Scope monad_scope with monad.
Notation "x <- m ;; k" := (bind m (fun x => k))
  (at level 61, m at next level, right associativity) : monad_scope.
Notation "m ;; k" := (bind m (fun _ => k))
  (at level 61, right associativity) : monad_scope.
Local Open Scope monad_scope.

(** [for (...) body] over a list of indices. *)
Fixpoint forM_ {S A : Type} (l : list A) (body : A -> M S unit) : M S unit :=
  match l with
  | [] => ret tt
  | a :: l' => body a ;; forM_ l' body
  end.

(** Projections of a run. *)
Definition result {S A : Type} (o : option A * S * list Event) : option A := fst (fst o).
Definition final {S A : Type} (o : option A * S * list Event) : S := snd (fst o).
Definition trace {S A : Type} (o : option A * S * list Event) : list Event := snd o.

(** The reports, the battery levels and the callback calls of a trace. *)
Fixpoint reports (t : list Event) : list (list Z) :=
  match t with
  | [] => []
  | InputNotify r :: t' => r :: reports t'
  | _ :: t' => reports t'
  end.

Fixpoint callbacks (t : list Event) : list Z :=
  match t with
  | [] => []
  | CallbackInvoked st :: t' => st :: callbacks t'
  | _ :: t' => callbacks t'
  end.

Fixpoint sleeps (t : list Event) : nat :=
  match t with
  | [] => 0%nat
  | DeepSleep :: t' => S (sleeps t')
  | _ :: t' => sleeps t'
  end.

(** ** class BLEJoystick *)

Module BLEJoystick.

(** Device states (BLEJoystick.h). *)
Definition DEVICE_STOPPED : Z := 0.
Definition DEVICE_IDLE : Z := 1.
Definition DEVICE_ADVERTISING : Z := 2.
Definition DEVICE_CONNECTED : Z := 3.

(** The data members; the BLE object pointers are the transport, seen
    through the trace only. *)
Record t : Type := mk {
  deviceState : Z;        (* uint8_t *)
  batteryLevel : Z;       (* uint8_t *)
  buttons : list Z;       (* uint8_t buttons[2] *)
  axes : list Z;          (* int16_t axes[8] *)
  hat : Z                 (* uint8_t *)
}.

Definition set_deviceState (v : Z) (j : t) : t :=
  mk v (batteryLevel j) (buttons j) (axes j) (hat j).
Definition set_batteryLevel (v : Z) (j : t) : t :=
  mk (deviceState j) v (buttons j) (axes j) (hat j).
Definition set_buttons (v : list Z) (j : t) : t :=
  mk (deviceState j) (batteryLevel j) v (axes j) (hat j).
Definition set_axes (v : list Z) (j : t) : t :=
  mk (deviceState j) (batteryLevel j) (buttons j) v (hat j).
Definition set_hat (v : Z) (j : t) : t :=
  mk (deviceState j) (batteryLevel j) (buttons j) (axes j) v.

(** [if (b) byte |= (1 << n);] on a [uint8_t]. *)
Definition or_bit (b : bool) (n : Z) (byte : Z) : Z :=
  if b then to_uint8 (Z.lor byte (Z.shiftl 1 n)) else byte.

(** The five bytes [notifyHIDReport] builds from the members. *)
Definition report (j : t) : list Z :=
  [ nth 0 (buttons j) 0;
    nth 1 (buttons j) 0;
    to_uint8 (Z.land (hat j) 15);
    to_uint8 (nth 0 (axes j) 0);
    to_uint8 (nth 1 (axes j) 0) ].

Section Methods.

(** The rest of the program state: the callback is a closure over the
    globals of the program that owns the joystick. *)
Context {W : Type}.

Definition St : Type := (t * W)%type.

(** The member [stateChangeCallback]; [None] is the empty
    [std::function]. *)
Variable stateChangeCallback : option (M St unit).

Definition this {A : Type} (f : t -> A) : M St A :=
  gets (fun s => f (fst s)).
Definition assign (f : t -> t) : M St unit :=
  modify (fun s => (f (fst s), snd s)).

Definition getState : M St Z := this deviceState.

Definition updateDeviceState (newState : Z) : M St unit :=
  st <- this deviceState ;;
  if negb (st =? newState) then
    assign (set_deviceState newState) ;;
    match stateChangeCallback with
    | Some callback => emit (CallbackInvoked newState) ;; callback
    | None => ret tt
    end
  else ret tt.

Definition start : M St unit :=
  st <- this deviceState ;;
  if st =? DEVICE_STOPPED then updateDeviceState DEVICE_IDLE else ret tt.

Definition startAdvertising : M St unit :=
  st <- this deviceState ;;
  if st =? DEVICE_IDLE then
    emit AdvertisingStart ;;
    updateDeviceState DEVICE_ADVERTISING
  else ret tt.

Definition stopAdvertising : M St unit :=
  st <- this deviceState ;;
  if st =? DEVICE_ADVERTISING then
    emit AdvertisingStop ;;
    updateDeviceState DEVICE_IDLE
  else ret tt.

Definition stop : M St unit :=
  st <- this deviceState ;;
  if negb (st =? DEVICE_STOPPED) then
    stopAdvertising ;;
    updateDeviceState DEVICE_STOPPED
  else ret tt.

Definition setButtons (b1 b2 b3 b4 b5 b6 b7 b8 b9 b10 b11 b12 : bool)
  : M St unit :=
  let byte0 :=
    or_bit b8 7 (or_bit b7 6 (or_bit b6 5 (or_bit b5 4
      (or_bit b4 3 (or_bit b3 2 (or_bit b2 1 (or_bit b1 0 0))))))) in
  let byte1 :=
    or_bit b12 3 (or_bit b11 2 (or_bit b10 1 (or_bit b9 0 0))) in
  assign (set_buttons [byte0; byte1]).

Definition setAxes (x y z rZ rX rY slider1 slider2 : Z) : M St unit :=
  assign (set_axes [x; y; z; rZ; rX; rY; slider1; slider2]).

Definition setHat (hatDirection : Z) : M St unit :=
  assign (set_hat (if hatDirection <=? 8 then hatDirection else 0)).

Definition notifyHIDReport : M St unit :=
  st <- this deviceState ;;
  if st =? DEVICE_CONNECTED then
    r <- this report ;;
    emit (InputNotify r)
  else ret tt.

Definition setBatteryLevel (level : Z) : M St unit :=
  assign (set_batteryLevel (if level >? 100 then 100 else level)).

Definition notifyBatteryLevel : M St unit :=
  st <- this deviceState ;;
  if st =? DEVICE_CONNECTED then
    b <- this batteryLevel ;;
    emit (BatteryNotify b)
  else ret tt.

(** ServerCallbacks, called by the transport. *)
Definition onConnect : M St unit := updateDeviceState DEVICE_CONNECTED.
Definition onDisconnect : M St unit := updateDeviceState DEVICE_IDLE.

End Methods.

(** The members as the constructor leaves them. *)
Definition BLEJoystick : t :=
  set_batteryLevel (if 100 >? 100 then 100 else 100)
    (mk DEVICE_STOPPED 100 [0; 0] (repeat 0 8) 0).

End BLEJoystick.

(** ** main.cpp *)

(** Pins. *)
Definition BATTERY_PIN : Z := 0.
Definition POWER_KEY_PIN : Z := 1.
Definition LED0_PIN : Z := 8.
Definition CLK_PIN : Z := 2.
Definition LATCH_PIN : Z := 3.
Definition DATA_PIN : Z := 4.
Definition HIGH : bool := true.
Definition LOW : bool := false.

(** Button mapping: positions in [buttonState]. *)
Definition NES_BUTTON_A : nat := 0.
Definition NES_BUTTON_B : nat := 1.
Definition NES_BUTTON_SELECT : nat := 2.
Definition NES_BUTTON_START : nat := 3.
Definition NES_BUTTON_UP : nat := 4.
Definition NES_BUTTON_DOWN : nat := 5.
Definition NES_BUTTON_LEFT : nat := 6.
Definition NES_BUTTON_RIGHT : nat := 7.

Definition IDLE_TIMEOUT : Z := 30000.
Definition ADVERTISING_TIMEOUT : Z := 30000.

(** A [bool[8]] array: one field per position. *)
Record Bool8 : Type := mkBool8 {
  at0 : bool; at1 : bool; at2 : bool; at3 : bool;
  at4 : bool; at5 : bool; at6 : bool; at7 : bool
}.

(** [a[i]]; the program only indexes with 0..7. *)
Definition get8 (a : Bool8) (i : nat) : bool :=
  match i with
  | 0%nat => at0 a | 1%nat => at1 a | 2%nat => at2 a | 3%nat => at3 a
  | 4%nat => at4 a | 5%nat => at5 a | 6%nat => at6 a | 7%nat => at7 a
  | _ => false
  end.

(** [a[i] = v]. *)
Definition set8 (i : nat) (v : bool) (a : Bool8) : Bool8 :=
  match i with
  | 0%nat => mkBool8 v (at1 a) (at2 a) (at3 a) (at4 a) (at5 a) (at6 a) (at7 a)
  | 1%nat => mkBool8 (at0 a) v (at2 a) (at3 a) (at4 a) (at5 a) (at6 a) (at7 a)
  | 2%nat => mkBool8 (at0 a) (at1 a) v (at3 a) (at4 a) (at5 a) (at6 a) (at7 a)
  | 3%nat => mkBool8 (at0 a) (at1 a) (at2 a) v (at4 a) (at5 a) (at6 a) (at7 a)
  | 4%nat => mkBool8 (at0 a) (at1 a) (at2 a) (at3 a) v (at5 a) (at6 a) (at7 a)
  | 5%nat => mkBool8 (at0 a) (at1 a) (at2 a) (at3 a) (at4 a) v (at6 a) (at7 a)
  | 6%nat => mkBool8 (at0 a) (at1 a) (at2 a) (at3 a) (at4 a) (at5 a) v (at7 a)
  | 7%nat => mkBool8 (at0 a) (at1 a) (at2 a) (at3 a) (at4 a) (at5 a) (at6 a) v
  | _ => a
  end.

Definition all_false : Bool8 :=
  mkBool8 false false false false false false false false.

(** A snapshot named by button, in the order of the button mapping. *)
Definition snapshot (a b select start up down left right : bool) : Bool8 :=
  mkBool8 a b select start up down left right.

(** The globals, and the millisecond counter [millis()] reads. *)
Record Globals : Type := mkGlobals {
  buttonState : Bool8;
  prevButtonState : Bool8;
  lastActivityTime : Z;        (* unsigned long *)
  advertisingStartTime : Z;    (* unsigned long *)
  batteryLevel : Z;            (* int *)
  prevBatteryLevel : Z;        (* int *)
  lastBatteryCheck : Z;        (* static unsigned long, in loop() *)
  clock : Z                    (* milliseconds since power-on *)
}.

Definition set_buttonState (v : Bool8) (g : Globals) : Globals :=
  mkGlobals v (prevButtonState g) (lastActivityTime g) (advertisingStartTime g)
    (batteryLevel g) (prevBatteryLevel g) (lastBatteryCheck g) (clock g).
Definition set_prevButtonState (v : Bool8) (g : Globals) : Globals :=
  mkGlobals (buttonState g) v (lastActivityTime g) (advertisingStartTime g)
    (batteryLevel g) (prevBatteryLevel g) (lastBatteryCheck g) (clock g).
Definition set_lastActivityTime (v : Z) (g : Globals) : Globals :=
  mkGlobals (buttonState g) (prevButtonState g) v (advertisingStartTime g)
    (batteryLevel g) (prevBatteryLevel g) (lastBatteryCheck g) (clock g).
Definition set_advertisingStartTime (v : Z) (g : Globals) : Globals :=
  mkGlobals (buttonState g) (prevButtonState g) (lastActivityTime g) v
    (batteryLevel g) (prevBatteryLevel g) (lastBatteryCheck g) (clock g).
Definition set_batteryLevel (v : Z) (g : Globals) : Globals :=
  mkGlobals (buttonState g) (prevButtonState g) (lastActivityTime g)
    (advertisingStartTime g) v (prevBatteryLevel g) (lastBatteryCheck g) (clock g).
Definition set_prevBatteryLevel (v : Z) (g : Globals) : Globals :=
  mkGlobals (buttonState g) (prevButtonState g) (lastActivityTime g)
    (advertisingStartTime g) (batteryLevel g) v (lastBatteryCheck g) (clock g).
Definition set_lastBatteryCheck (v : Z) (g : Globals) : Globals :=
  mkGlobals (buttonState g) (prevButtonState g) (lastActivityTime g)
    (advertisingStartTime g) (batteryLevel g) (prevBatteryLevel g) v (clock g).
Definition set_clock (v : Z) (g : Globals) : Globals :=
  mkGlobals (buttonState g) (prevButtonState g) (lastActivityTime g)
    (advertisingStartTime g) (batteryLevel g) (prevBatteryLevel g)
    (lastBatteryCheck g) v.

(** The whole program state: the object behind the global pointer
    [joystick], and the other globals. *)
Definition System : Type := (BLEJoystick.t * Globals)%type.

Definition global {A : Type} (f : Globals -> A) : M System A :=
  gets (fun s => f (snd s)).
Definition store (f : Globals -> Globals) : M System unit :=
  modify (fun s => (fst s, f (snd s))).

(** Arduino core. *)
Definition millis : M System Z := global (fun g => to_uint32 (clock g)).
Definition delay (ms : Z) : M System unit :=
  store (fun g => set_clock (clock g + ms) g).
Definition digitalWrite (pin : Z) (level : bool) : M System unit :=
  emit (DigitalWrite pin level).
Definition esp_deep_sleep_start {A : Type} : M System A :=
  fun s => (None, s, [DeepSleep]).

Definition powerOn : M System unit :=
  digitalWrite POWER_KEY_PIN LOW ;;
  delay 200 ;;
  digitalWrite POWER_KEY_PIN HIGH.

Definition powerOff : M System unit :=
  digitalWrite POWER_KEY_PIN LOW ;;
  delay 100 ;;
  digitalWrite POWER_KEY_PIN HIGH ;;
  delay 100 ;;
  digitalWrite POWER_KEY_PIN LOW ;;
  delay 100 ;;
  digitalWrite POWER_KEY_PIN HIGH ;;
  esp_deep_sleep_start.

Definition lightOn : M System unit := digitalWrite LED0_PIN LOW.
Definition lightOff : M System unit := digitalWrite LED0_PIN HIGH.

(** [readBatteryLevel] computes a percentage from the ADC sample in
    floating point; its result is an input of the model. *)
Definition readBatteryLevel (percentage : Z) : M System Z := ret percentage.

(** [readNESController]: [data i] is the level of the data line at the
    i-th read (the line is active low). The microsecond delays are below
    the resolution of [clock]. *)
Definition readNESController (data : nat -> bool) : M System unit :=
  digitalWrite LATCH_PIN HIGH ;;
  digitalWrite LATCH_PIN LOW ;;
  forM_ (seq 0 8) (fun i =>
    store (fun g => set_buttonState (set8 i (negb (data i)) (buttonState g)) g) ;;
    digitalWrite CLK_PIN HIGH ;;
    digitalWrite CLK_PIN LOW).

Definition joystickStateCallback : M System unit :=
  st <- BLEJoystick.getState ;;
  if st =? BLEJoystick.DEVICE_IDLE then
    lightOff ;;
    t <- millis ;;
    store (set_lastActivityTime t)
  else if st =? BLEJoystick.DEVICE_ADVERTISING then
    t <- millis ;;
    store (set_advertisingStartTime t)
  else if st =? BLEJoystick.DEVICE_CONNECTED then
    lightOn ;;
    t <- millis ;;
    store (set_lastActivityTime t) ;;
    b <- global batteryLevel ;;
    BLEJoystick.setBatteryLevel (to_uint8 b) ;;
    BLEJoystick.notifyBatteryLevel
  else ret tt.

(** The joystick's methods with the callback [setup] registers. *)
Definition registered : option (M System unit) := Some joystickStateCallback.

Definition checkTimers : M System unit :=
  currentTime <- millis ;;
  st <- BLEJoystick.getState ;;
  lat <- global lastActivityTime ;;
  (if (st =? BLEJoystick.DEVICE_IDLE)
      && (to_uint32 (currentTime - lat) >? IDLE_TIMEOUT)
   then powerOff else ret tt) ;;
  st1 <- BLEJoystick.getState ;;
  ast <- global advertisingStartTime ;;
  if (st1 =? BLEJoystick.DEVICE_ADVERTISING)
     && (to_uint32 (currentTime - ast) >? ADVERTISING_TIMEOUT)
  then
    BLEJoystick.stopAdvertising registered ;;
    lightOff
  else
    st2 <- BLEJoystick.getState ;;
    if st2 =? BLEJoystick.DEVICE_ADVERTISING then
      digitalWrite LED0_PIN ((currentTime / 500) mod 2 =? 0)
    else ret tt.

(** The locals of [loop] derived from the directional buttons:
    [dpadDirection], [x] and [y].  [loop] passes [dpadDirection] to
    [setHat]; it computes [x] and [y] and never calls [setAxes]. *)
Definition dpadDirection (b : Bool8) : Z :=
  if get8 b NES_BUTTON_UP && get8 b NES_BUTTON_RIGHT then 2
  else if get8 b NES_BUTTON_RIGHT && get8 b NES_BUTTON_DOWN then 4
  else if get8 b NES_BUTTON_DOWN && get8 b NES_BUTTON_LEFT then 6
  else if get8 b NES_BUTTON_LEFT && get8 b NES_BUTTON_UP then 8
  else if get8 b NES_BUTTON_UP then 1
  else if get8 b NES_BUTTON_RIGHT then 3
  else if get8 b NES_BUTTON_DOWN then 5
  else if get8 b NES_BUTTON_LEFT then 7
  else 0.

Definition axis_x (b : Bool8) : Z :=
  if get8 b NES_BUTTON_RIGHT then 127
  else if get8 b NES_BUTTON_LEFT then -127 else 0.

Definition axis_y (b : Bool8) : Z :=
  if get8 b NES_BUTTON_DOWN then 127
  else if get8 b NES_BUTTON_UP then -127 else 0.

(** [loop], first part: "Check if state has changed". *)
Fixpoint detectChange (l : list nat) (stateChanged : bool) : M System bool :=
  match l with
  | [] => ret stateChanged
  | i :: l' =>
      cur <- global buttonState ;;
      prev <- global prevButtonState ;;
      if negb (Bool.eqb (get8 cur i) (get8 prev i)) then
        store (fun g => set_prevButtonState
                          (set8 i (get8 (buttonState g) i) (prevButtonState g)) g) ;;
        detectChange l' true
      else detectChange l' stateChanged
  end.

(** [loop], second part: "Update joystick if state changed". *)
Definition updateJoystick : M System unit :=
  b <- global buttonState ;;
  let dpad := dpadDirection b in
  let x := axis_x b in
  let y := axis_y b in
  st <- BLEJoystick.getState ;;
  if st =? BLEJoystick.DEVICE_CONNECTED then
    BLEJoystick.setHat dpad ;;
    BLEJoystick.setButtons
      (get8 b NES_BUTTON_A) (get8 b NES_BUTTON_B)
      false false false false false false false false
      (get8 b NES_BUTTON_SELECT) (get8 b NES_BUTTON_START) ;;
    BLEJoystick.notifyHIDReport ;;
    t <- millis ;;
    store (set_lastActivityTime t)
  else
    st1 <- BLEJoystick.getState ;;
    if st1 =? BLEJoystick.DEVICE_IDLE then
      BLEJoystick.startAdvertising registered ;;
      t <- millis ;;
      store (set_advertisingStartTime t)
    else ret tt.

(** [loop], third part: "Check battery level periodically". *)
Definition checkBattery (percentage : Z) : M System unit :=
  now <- millis ;;
  lbc <- global lastBatteryCheck ;;
  if to_uint32 (now - lbc) >? 5000 then
    b <- readBatteryLevel percentage ;;
    store (set_batteryLevel b) ;;
    prev <- global prevBatteryLevel ;;
    st <- BLEJoystick.getState ;;
    (if negb (b =? prev) && (st =? BLEJoystick.DEVICE_CONNECTED) then
       store (set_prevBatteryLevel b) ;;
       BLEJoystick.setBatteryLevel (to_uint8 b) ;;
       BLEJoystick.notifyBatteryLevel
     else ret tt) ;;
    t <- millis ;;
    store (set_lastBatteryCheck t)
  else ret tt.

Definition loop (data : nat -> bool) (percentage : Z) : M System unit :=
  readNESController data ;;
  stateChanged <- detectChange (seq 0 8) false ;;
  (if stateChanged then updateJoystick else ret tt) ;;
  checkBattery percentage ;;
  checkTimers ;;
  delay 10.

(** The globals at power-on, and [setup]. *)
Definition power_on : System :=
  (BLEJoystick.BLEJoystick,
   mkGlobals all_false all_false 0 0 0 0 0 0).

Definition setup (percentage : Z) : M System unit :=
  powerOn ;;
  modify (fun s => (BLEJoystick.BLEJoystick, snd s)) ;;
  BLEJoystick.start registered ;;
  BLEJoystick.startAdvertising registered ;;
  t <- millis ;;
  store (set_advertisingStartTime t) ;;
  b <- readBatteryLevel percentage ;;
  store (set_batteryLevel b) ;;
  store (set_prevBatteryLevel b).

(** Time passing between two actions of the program. *)
Definition elapse (ms : Z) (s : System) : System :=
  (fst s, set_clock (clock (snd s) + ms) (snd s)).

(** ** Vocabulary of the properties *)

(** The logical input of the encoder written into the members: hat,
    axes, then the twelve buttons. *)
Definition submit {W : Type} (h : Z) (x y z rZ rX rY sl1 sl2 : Z)
           (b1 b2 b3 b4 b5 b6 b7 b8 b9 b10 b11 b12 : bool)
  : M (BLEJoystick.St (W := W)) unit :=
  BLEJoystick.setHat h ;;
  BLEJoystick.setAxes x y z rZ rX rY sl1 sl2 ;;
  BLEJoystick.setButtons b1 b2 b3 b4 b5 b6 b7 b8 b9 b10 b11 b12.

(** A callback that returns, leaves [deviceState] alone and does not call
    back into itself; [joystickStateCallback] is one. *)
Definition quiet {W : Type} (callback : M (BLEJoystick.St (W := W)) unit) : Prop :=
  forall s, exists s' t,
    callback s = (Some tt, s', t)
    /\ BLEJoystick.deviceState (fst s') = BLEJoystick.deviceState (fst s)
    /\ callbacks t = [].

(** The transition requests: the public operations and the two transport
    events. *)
Inductive Request : Type :=
| ReqStart
| ReqStop
| ReqStartAdvertising
| ReqStopAdvertising
| ReqConnect
| ReqDisconnect.

Definition request {W : Type} (cb : option (M (BLEJoystick.St (W := W)) unit))
           (r : Request) : M (BLEJoystick.St (W := W)) unit :=
  match r with
  | ReqStart => BLEJoystick.start cb
  | ReqStop => BLEJoystick.stop cb
  | ReqStartAdvertising => BLEJoystick.startAdvertising cb
  | ReqStopAdvertising => BLEJoystick.stopAdvertising cb
  | ReqConnect => BLEJoystick.onConnect cb
  | ReqDisconnect => BLEJoystick.onDisconnect cb
  end.

(** Each state of the list differs from the one before it, starting
    from [st]. *)
Fixpoint each_differs (st : Z) (l : list Z) : Prop :=
  match l with
  | [] => True
  | st' :: l' => st' <> st /\ each_differs st' l'
  end.

(** The device entered Idle at time 0: it was started at power-on, and
    the callback stored [millis()] = 0 in [lastActivityTime]. *)
Definition idle_since_0 : System :=
  final (BLEJoystick.start registered power_on).

(** The snapshot [readNESController] leaves in [buttonState]. *)
Definition sample (data : nat -> bool) : Bool8 :=
  mkBool8 (negb (data 0%nat)) (negb (data 1%nat)) (negb (data 2%nat))
          (negb (data 3%nat)) (negb (data 4%nat)) (negb (data 5%nat))
          (negb (data 6%nat)) (negb (data 7%nat)).

(** The pin activity of one read: the latch pulse and eight clock pulses. *)
Definition read_pulses : list Event :=
  [DigitalWrite LATCH_PIN HIGH; DigitalWrite LATCH_PIN LOW]
  ++ concat (repeat [DigitalWrite CLK_PIN HIGH; DigitalWrite CLK_PIN LOW] 8).

(** Whether two snapshots differ somewhere. *)
Definition differ (a b : Bool8) : bool :=
  xorb (at0 a) (at0 b) || xorb (at1 a) (at1 b) || xorb (at2 a) (at2 b)
  || xorb (at3 a) (at3 b) || xorb (at4 a) (at4 b) || xorb (at5 a) (at5 b)
  || xorb (at6 a) (at6 b) || xorb (at7 a) (at7 b).

(** [m] keeps property [P] of the state, however it ends. *)
Definition keeps {S A : Type} (P : S -> Prop) (m : M S A) : Prop :=
  forall s r s' t, m s = (r, s', t) -> P s -> P s'.

(** The X and Y (and the other six) axes hold the constructor's zeros. *)
Definition axes_zero {W : Type} (s : BLEJoystick.St (W := W)) : Prop :=
  BLEJoystick.axes (fst s) = repeat 0 8.

(** The states the running program passes through between two actions:
    after [setup], after an iteration of [loop], after a transport event,
    and as time passes. *)
Inductive reachable : System -> Prop :=
| reach_setup (percentage : Z) (s : System) (t : list Event) :
    setup percentage power_on = (Some tt, s, t) -> reachable s
| reach_loop (data : nat -> bool) (percentage : Z) (s s' : System)
             (t : list Event) :
    reachable s -> loop data percentage s = (Some tt, s', t) -> reachable s'
| reach_connect (s s' : System) (t : list Event) :
    reachable s ->
    BLEJoystick.onConnect registered s = (Some tt, s', t) -> reachable s'
| reach_disconnect (s s' : System) (t : list Event) :
    reachable s ->
    BLEJoystick.onDisconnect registered s = (Some tt, s', t) -> reachable s'
| reach_elapse (ms : Z) (s : System) :
    reachable s -> 0 <= ms -> reachable (elapse ms s).

(** The joystick members after the Connected branch of [loop] has written
    hat and buttons from snapshot [b]. *)
Definition updated (b : Bool8) (j : BLEJoystick.t) : BLEJoystick.t :=
  fst (final
         ((BLEJoystick.setHat (dpadDirection b) ;;
           BLEJoystick.setButtons
             (get8 b NES_BUTTON_A) (get8 b NES_BUTTON_B)
             false false false false false false false false
             (get8 b NES_BUTTON_SELECT) (get8 b NES_BUTTON_START)) (j, tt))).

(** Only A pressed. *)
Definition a_only : Bool8 :=
  snapshot true false false false false false false false.

(** The program after [setup] (battery at 80%) and a connect event. *)
Definition after_setup : System := final (setup 80 power_on).
Definition connected : System :=
  final (BLEJoystick.onConnect registered after_setup).

(** The data line while only A is held: low at the first read. *)
Definition a_held (i : nat) : bool := negb (Nat.eqb i 0).


(** A button as the bit it contributes. *)
Definition b2z (b : bool) : Z := if b then 1 else 0.

(** The members as the running program keeps them: a started device,
    a battery percentage, a hat direction, the two button bytes that
    [loop] can produce, and the constructor's axes. *)
Definition well_formed (j : BLEJoystick.t) : Prop :=
  (BLEJoystick.deviceState j = BLEJoystick.DEVICE_IDLE
   \/ BLEJoystick.deviceState j = BLEJoystick.DEVICE_ADVERTISING
   \/ BLEJoystick.deviceState j = BLEJoystick.DEVICE_CONNECTED)
  /\ 0 <= BLEJoystick.batteryLevel j <= 100
  /\ 0 <= BLEJoystick.hat j <= 8
  /\ BLEJoystick.axes j = repeat 0 8
  /\ exists b0 b1,
       BLEJoystick.buttons j = [b0; b1]
       /\ 0 <= b0 <= 3
       /\ (b1 = 0 \/ b1 = 4 \/ b1 = 8 \/ b1 = 12).

Definition inv (s : System) : Prop := well_formed (fst s).

(** What the transport may be handed: a battery percentage, or a
    five-byte report with buttons 1, 2, 11, 12 only, a hat direction and
    centred axes. *)
Definition sendable (e : Event) : Prop :=
  match e with
  | BatteryNotify level => 0 <= level <= 100
  | InputNotify r =>
      exists b0 b1 h,
        r = [b0; b1; h; 0; 0]
        /\ 0 <= b0 <= 3
        /\ (b1 = 0 \/ b1 = 4 \/ b1 = 8 \/ b1 = 12)
        /\ 0 <= h <= 8
  | _ => True
  end.

(** [m] keeps invariant [I] and emits only events that satisfy [Q]. *)
Definition sound {S A : Type} (I : S -> Prop) (Q : Event -> Prop)
           (m : M S A) : Prop :=
  forall s r s' t, m s = (r, s', t) -> I s -> I s' /\ Forall Q t.

(** [loop] up to the timer check. *)
Definition loop_body (data : nat -> bool) (percentage : Z) : M System unit :=
  readNESController data ;;
  stateChanged <- detectChange (seq 0 8) false ;;
  (if stateChanged then updateJoystick else ret tt) ;;
  checkBattery percentage.

(** The transition table of the device: the states a request passes
    through when it is made in state [st], in order. *)
Definition transition (r : Request) (st : Z) : list Z :=
  match r with
  | ReqStart =>
      if st =? BLEJoystick.DEVICE_STOPPED then [BLEJoystick.DEVICE_IDLE] else []
  | ReqStop =>
      if st =? BLEJoystick.DEVICE_STOPPED then []
      else if st =? BLEJoystick.DEVICE_ADVERTISING
           then [BLEJoystick.DEVICE_IDLE; BLEJoystick.DEVICE_STOPPED]
           else [BLEJoystick.DEVICE_STOPPED]
  | ReqStartAdvertising =>
      if st =? BLEJoystick.DEVICE_IDLE then [BLEJoystick.DEVICE_ADVERTISING]
      else []
  | ReqStopAdvertising =>
      if st =? BLEJoystick.DEVICE_ADVERTISING then [BLEJoystick.DEVICE_IDLE]
      else []
  | ReqConnect =>
      if st =? BLEJoystick.DEVICE_CONNECTED then []
      else [BLEJoystick.DEVICE_CONNECTED]
  | ReqDisconnect =>
      if st =? BLEJoystick.DEVICE_IDLE then [] else [BLEJoystick.DEVICE_IDLE]
  end.

(** The advertising commands of a trace: [true] for start, [false] for
    stop. *)
Fixpoint advertising (t : list Event) : list bool :=
  match t with
  | [] => []
  | AdvertisingStart :: t' => true :: advertising t'
  | AdvertisingStop :: t' => false :: advertising t'
  | _ :: t' => advertising t'
  end.

(** A device idle since one second before the counter wraps. *)
Definition idle_before_wrap : System :=
  (fst idle_since_0,
   set_lastActivityTime (2 ^ 32 - 1000)
     (set_clock (2 ^ 32 - 1000) (snd idle_since_0))).

(** [s'] differs from [s] at most in the battery bookkeeping: the
    joystick's [batteryLevel] and the globals [batteryLevel],
    [prevBatteryLevel] and [lastBatteryCheck]. *)
Definition battery_only (s s' : System) : Prop :=
  BLEJoystick.deviceState (fst s') = BLEJoystick.deviceState (fst s)
  /\ BLEJoystick.buttons (fst s') = BLEJoystick.buttons (fst s)
  /\ BLEJoystick.axes (fst s') = BLEJoystick.axes (fst s)
  /\ BLEJoystick.hat (fst s') = BLEJoystick.hat (fst s)
  /\ buttonState (snd s') = buttonState (snd s)
  /\ prevButtonState (snd s') = prevButtonState (snd s)
  /\ lastActivityTime (snd s') = lastActivityTime (snd s)
  /\ advertisingStartTime (snd s') = advertisingStartTime (snd s)
  /\ clock (snd s') = clock (snd s).

(** Up and Right held together with A, on the data line. *)
Definition a_up_right_held (i : nat) : bool :=
  negb (Nat.eqb i 0 || Nat.eqb i 4 || Nat.eqb i 7).

(** * Properties *)

(** ** Traces *)

Lemma reports_app (t1 t2 : list Event) :
  reports (t1 ++ t2) = reports t1 ++ reports t2.
Proof.
  induction t1 as [|e t1 IH]; simpl; [reflexivity|].
  destruct e; simpl; rewrite IH; reflexivity.
Qed.

Lemma callbacks_app (t1 t2 : list Event) :
  callbacks (t1 ++ t2) = callbacks t1 ++ callbacks t2.
Proof.
  induction t1 as [|e t1 IH]; simpl; [reflexivity|].
  destruct e; simpl; rewrite IH; reflexivity.
Qed.

Lemma sleeps_app (t1 t2 : list Event) :
  sleeps (t1 ++ t2) = (sleeps t1 + sleeps t2)%nat.
Proof.
  induction t1 as [|e t1 IH]; simpl; [reflexivity|].
  destruct e; simpl; rewrite IH; reflexivity.
Qed.

(** ** Running a sequence *)

Lemma bind_run {S A B : Type} (m : M S A) (k : A -> M S B) (s s1 s2 : S)
      (a : A) (r : option B) (t1 t2 : list Event) :
  m s = (Some a, s1, t1) ->
  k a s1 = (r, s2, t2) ->
  bind m k s = (r, s2, t1 ++ t2).
Proof. intros Hm Hk. unfold bind. rewrite Hm, Hk. reflexivity. Qed.

Lemma bind_halt {S A B : Type} (m : M S A) (k : A -> M S B) (s s1 : S)
      (t1 : list Event) :
  m s = (None, s1, t1) ->
  bind m k s = (None, s1, t1).
Proof. intros Hm. unfold bind. rewrite Hm. reflexivity. Qed.

(** Unfolds the primitives of the monad and of the two layers of state. *)
Ltac run :=
  cbv [bind ret gets modify emit BLEJoystick.this BLEJoystick.assign
       BLEJoystick.getState global store result final trace];
  cbn [fst snd app].

(** The same, repeated, with the device states as numbers so that tests on
    a known state are decided. *)
Ltac run_states :=
  repeat progress
    (run;
     cbv [BLEJoystick.DEVICE_STOPPED BLEJoystick.DEVICE_IDLE
          BLEJoystick.DEVICE_ADVERTISING BLEJoystick.DEVICE_CONNECTED];
     cbn [Z.eqb Pos.eqb negb andb]).

(** The same, where hypothesis [H] gives the device state. *)
Ltac run_at H := repeat progress (run_states; try rewrite H).

(** ** The report encoder *)

Section Encoder.

Context {W : Type}.
Local Abbreviation St := (BLEJoystick.St (W := W)).

Lemma or_bit_byte0 (b1 b2 b3 b4 b5 b6 b7 b8 : bool) :
  let byte0 :=
    BLEJoystick.or_bit b8 7 (BLEJoystick.or_bit b7 6 (BLEJoystick.or_bit b6 5
      (BLEJoystick.or_bit b5 4 (BLEJoystick.or_bit b4 3 (BLEJoystick.or_bit b3 2
        (BLEJoystick.or_bit b2 1 (BLEJoystick.or_bit b1 0 0))))))) in
  map (Z.testbit byte0) [0; 1; 2; 3; 4; 5; 6; 7] = [b1; b2; b3; b4; b5; b6; b7; b8]
  /\ 0 <= byte0 < 256.
Proof.
  destruct b1, b2, b3, b4, b5, b6, b7, b8; vm_compute; intuition congruence.
Qed.

Lemma or_bit_byte1 (b9 b10 b11 b12 : bool) :
  let byte1 :=
    BLEJoystick.or_bit b12 3 (BLEJoystick.or_bit b11 2
      (BLEJoystick.or_bit b10 1 (BLEJoystick.or_bit b9 0 0))) in
  map (Z.testbit byte1) [0; 1; 2; 3] = [b9; b10; b11; b12]
  /\ map (Z.testbit byte1) [4; 5; 6; 7] = [false; false; false; false]
  /\ 0 <= byte1 < 16.
Proof.
  destruct b9, b10, b11, b12; vm_compute; intuition congruence.
Qed.

Lemma notifyHIDReport_connected (s : St) :
  BLEJoystick.deviceState (fst s) = BLEJoystick.DEVICE_CONNECTED ->
  BLEJoystick.notifyHIDReport s
  = (Some tt, s, [InputNotify (BLEJoystick.report (fst s))]).
Proof.
  intros H. unfold BLEJoystick.notifyHIDReport. run. rewrite H. reflexivity.
Qed.

Lemma notifyHIDReport_other (s : St) :
  BLEJoystick.deviceState (fst s) <> BLEJoystick.DEVICE_CONNECTED ->
  BLEJoystick.notifyHIDReport s = (Some tt, s, []).
Proof.
  intros H. unfold BLEJoystick.notifyHIDReport. run.
  destruct (Z.eqb_spec (BLEJoystick.deviceState (fst s))
              BLEJoystick.DEVICE_CONNECTED); [contradiction|reflexivity].
Qed.

Lemma notifyBatteryLevel_connected (s : St) :
  BLEJoystick.deviceState (fst s) = BLEJoystick.DEVICE_CONNECTED ->
  BLEJoystick.notifyBatteryLevel s
  = (Some tt, s, [BatteryNotify (BLEJoystick.batteryLevel (fst s))]).
Proof.
  intros H. unfold BLEJoystick.notifyBatteryLevel. run. rewrite H. reflexivity.
Qed.

Lemma notifyBatteryLevel_other (s : St) :
  BLEJoystick.deviceState (fst s) <> BLEJoystick.DEVICE_CONNECTED ->
  BLEJoystick.notifyBatteryLevel s = (Some tt, s, []).
Proof.
  intros H. unfold BLEJoystick.notifyBatteryLevel. run.
  destruct (Z.eqb_spec (BLEJoystick.deviceState (fst s))
              BLEJoystick.DEVICE_CONNECTED); [contradiction|reflexivity].
Qed.

(** C1. After [setButtons], bit i of byte 0 of the encoded report is
    button i+1 (i < 8), bits 0-3 of byte 1 are buttons 9-12 and bits 4-7
    of byte 1 are 0, whatever the twelve booleans and the state before.
    The report is a function of the logical input alone: the same hat,
    axes and buttons written into any two joysticks give the same five
    bytes, and a connected joystick sends exactly these bytes. *)
Theorem setButtons_report_layout :
  forall (b1 b2 b3 b4 b5 b6 b7 b8 b9 b10 b11 b12 : bool) (s : St),
    let o := BLEJoystick.setButtons b1 b2 b3 b4 b5 b6 b7 b8 b9 b10 b11 b12 s in
    let r := BLEJoystick.report (fst (final o)) in
    result o = Some tt
    /\ trace o = []
    /\ length r = 5%nat
    /\ map (Z.testbit (nth 0 r 0)) [0; 1; 2; 3; 4; 5; 6; 7]
       = [b1; b2; b3; b4; b5; b6; b7; b8]
    /\ map (Z.testbit (nth 1 r 0)) [0; 1; 2; 3] = [b9; b10; b11; b12]
    /\ map (Z.testbit (nth 1 r 0)) [4; 5; 6; 7] = [false; false; false; false]
    /\ 0 <= nth 0 r 0 < 256
    /\ 0 <= nth 1 r 0 < 16
    /\ (forall (h x y z rZ rX rY sl1 sl2 : Z) (s1 s2 : St),
           BLEJoystick.report
             (fst (final (submit h x y z rZ rX rY sl1 sl2
                            b1 b2 b3 b4 b5 b6 b7 b8 b9 b10 b11 b12 s1)))
           = BLEJoystick.report
               (fst (final (submit h x y z rZ rX rY sl1 sl2
                              b1 b2 b3 b4 b5 b6 b7 b8 b9 b10 b11 b12 s2))))
    /\ (forall (j : BLEJoystick.t) (w : W),
           let c := (BLEJoystick.set_deviceState
                       BLEJoystick.DEVICE_CONNECTED j, w) in
           BLEJoystick.notifyHIDReport c
           = (Some tt, c, [InputNotify (BLEJoystick.report (fst c))])).
Proof.
  intros b1 b2 b3 b4 b5 b6 b7 b8 b9 b10 b11 b12 s o r.
  pose proof (or_bit_byte0 b1 b2 b3 b4 b5 b6 b7 b8) as [H0 R0].
  pose proof (or_bit_byte1 b9 b10 b11 b12) as (H1 & H1' & R1).
  subst o r. unfold BLEJoystick.setButtons. run.
  repeat match goal with |- _ /\ _ => split end;
    first [ assumption | apply R0 | apply R1
          | intros j w c; apply notifyHIDReport_connected; reflexivity
          | reflexivity ].
Qed.

End Encoder.

Section Notify.

Context {W : Type}.
Local Abbreviation St := (BLEJoystick.St (W := W)).

(** C6. In every device state other than Connected, [notifyHIDReport] and
    [notifyBatteryLevel] return normally, send nothing and leave the whole
    state as it was; in Connected each performs exactly one notify. *)
Theorem notify_only_when_connected :
  forall s : St,
    (BLEJoystick.deviceState (fst s) <> BLEJoystick.DEVICE_CONNECTED ->
     BLEJoystick.notifyHIDReport s = (Some tt, s, [])
     /\ BLEJoystick.notifyBatteryLevel s = (Some tt, s, []))
    /\ (BLEJoystick.deviceState (fst s) = BLEJoystick.DEVICE_CONNECTED ->
        BLEJoystick.notifyHIDReport s
        = (Some tt, s, [InputNotify (BLEJoystick.report (fst s))])
        /\ BLEJoystick.notifyBatteryLevel s
           = (Some tt, s, [BatteryNotify (BLEJoystick.batteryLevel (fst s))])).
Proof.
  intros s. split; intros H.
  - split; [apply notifyHIDReport_other | apply notifyBatteryLevel_other];
      exact H.
  - split; [apply notifyHIDReport_connected | apply notifyBatteryLevel_connected];
      exact H.
Qed.

(** C7. [setHat] never fails: it returns normally, sends nothing, stores
    its argument when the argument is at most 8 and stores 0 when it is
    greater than 8, and touches no other member. *)
Theorem setHat_clamps :
  forall (hatDirection : Z) (s : St),
    let o := BLEJoystick.setHat hatDirection s in
    result o = Some tt
    /\ trace o = []
    /\ (hatDirection <= 8 -> BLEJoystick.hat (fst (final o)) = hatDirection)
    /\ (8 < hatDirection -> BLEJoystick.hat (fst (final o)) = 0)
    /\ final o = (BLEJoystick.set_hat (BLEJoystick.hat (fst (final o))) (fst s),
                  snd s).
Proof.
  intros h s o. subst o. unfold BLEJoystick.setHat. run.
  repeat split; intros; cbn [BLEJoystick.hat BLEJoystick.set_hat].
  - destruct (Z.leb_spec h 8); [reflexivity | lia].
  - destruct (Z.leb_spec h 8); [lia | reflexivity].
Qed.

End Notify.

(** Byte 2 of the report as a function of the stored hat. *)
Lemma report_byte2 (j : BLEJoystick.t) :
  nth 2 (BLEJoystick.report j) 0 = to_uint8 (Z.land (BLEJoystick.hat j) 15).
Proof. reflexivity. Qed.

Lemma land_15_mod (h : Z) : Z.land h 15 = h mod 16.
Proof. change 15 with (Z.ones 4). rewrite Z.land_ones by lia. reflexivity. Qed.

(** C8. For a stored hat value 0..8 the low nibble of byte 2 of the report
    is that value and the high nibble is 0.  For any stored [uint8_t] value
    byte 2 is the value AND 0x0F, that is the value modulo 16, with a zero
    high nibble: 9 is encoded as 9 and 0x1F as 15, so the encoder masks and
    does not clamp. *)
Theorem report_hat_nibble :
  forall j : BLEJoystick.t,
    let byte2 := nth 2 (BLEJoystick.report j) 0 in
    (0 <= BLEJoystick.hat j <= 8 ->
     byte2 mod 16 = BLEJoystick.hat j /\ byte2 / 16 = 0)
    /\ (0 <= BLEJoystick.hat j < 256 ->
        byte2 = Z.land (BLEJoystick.hat j) 15
        /\ byte2 = BLEJoystick.hat j mod 16
        /\ byte2 / 16 = 0)
    /\ nth 2 (BLEJoystick.report (BLEJoystick.set_hat 9 j)) 0 = 9
    /\ nth 2 (BLEJoystick.report (BLEJoystick.set_hat 31 j)) 0 = 15.
Proof.
  intros j byte2. subst byte2.
  pose proof (Z.mod_pos_bound (BLEJoystick.hat j) 16 ltac:(lia)) as Hm.
  assert (E : nth 2 (BLEJoystick.report j) 0 = BLEJoystick.hat j mod 16).
  { rewrite report_byte2. unfold to_uint8. rewrite land_15_mod.
    apply Z.mod_small. lia. }
  rewrite E. split; [|split; [|split]].
  - intros H. split.
    + rewrite Z.mod_mod by lia. apply Z.mod_small. lia.
    + apply Z.div_small. lia.
  - intros H. split; [|split].
    + symmetry. apply land_15_mod.
    + reflexivity.
    + apply Z.div_small. lia.
  - reflexivity.
  - reflexivity.
Qed.

(** ** Hat and axes derived in [loop] *)

(** With Up, Right and Down all held the hat is 2 although Right and Down
    are both held, and Y is +127 although Up and Right are both held. *)
Lemma up_right_down_hat_and_axis :
  let b := snapshot false false false false true true false true in
  get8 b NES_BUTTON_UP = true
  /\ get8 b NES_BUTTON_RIGHT = true
  /\ get8 b NES_BUTTON_DOWN = true
  /\ dpadDirection b = 2
  /\ dpadDirection b <> 4
  /\ axis_x b = 127
  /\ axis_y b = 127
  /\ axis_y b <> -127.
Proof. vm_compute. repeat split; congruence. Qed.

(** C2, as the code has it. The hat is the value of the first rule that
    applies, in the order Up+Right 2, Right+Down 4, Down+Left 6, Left+Up 8,
    Up 1, Right 3, Down 5, Left 7, otherwise 0, whatever A, B, Select and
    Start are: Up+Right gives 2 always; Right+Down gives 4 when Up is
    released; Down+Left gives 6 when Right is released; Left+Up gives 8
    when Right and Down are released; with no adjacent pair held, Up gives
    1, else Right gives 3, else Down gives 5, else Left gives 7 (so exactly
    one held button gives its cardinal value); none held gives 0.  With
    Up+Right held X is 127, and Y is -127 when Down is released and +127
    when Down is held too. *)
Theorem dpadDirection_priority :
  forall a b select start : bool,
    let pad := snapshot a b select start in
    (forall down left, dpadDirection (pad true down left true) = 2)
    /\ (forall left, dpadDirection (pad false true left true) = 4)
    /\ (forall up, dpadDirection (pad up true true false) = 6)
    /\ dpadDirection (pad true false true false) = 8
    /\ (forall down, dpadDirection (pad true down false false) = 1)
    /\ (forall left, dpadDirection (pad false false left true) = 3)
    /\ dpadDirection (pad false true false false) = 5
    /\ dpadDirection (pad false false true false) = 7
    /\ dpadDirection (pad false false false false) = 0
    /\ (forall down left, axis_x (pad true down left true) = 127)
    /\ (forall left, axis_y (pad true false left true) = -127)
    /\ (forall left, axis_y (pad true true left true) = 127).
Proof.
  intros a b select start pad. subst pad.
  repeat match goal with |- _ /\ _ => split end;
    try reflexivity;
    let x := fresh in let y := fresh in
    first [ intros x y; destruct x, y; reflexivity
          | intros x; destruct x; reflexivity ].
Qed.

(** C10. With Up and Down held and Left and Right released the hat is 1,
    the value of Up alone, and Y is +127, the value of Down alone and the
    opposite of the -127 of Up alone; X is 0. *)
Theorem up_down_hat_axis_disagree :
  forall a b select start : bool,
    let pad := snapshot a b select start in
    dpadDirection (pad true true false false) = 1
    /\ axis_y (pad true true false false) = 127
    /\ axis_x (pad true true false false) = 0
    /\ dpadDirection (pad true false false false) = 1
    /\ axis_y (pad true false false false) = -127
    /\ dpadDirection (pad false true false false) = 5
    /\ axis_y (pad false true false false) = 127.
Proof. intros a b select start pad. repeat split. Qed.

(** ** The device state machine *)

Section StateMachine.

Context {W : Type}.
Local Abbreviation St := (BLEJoystick.St (W := W)).

Variable cb : option (M St unit).
Hypothesis cb_quiet : forall callback, cb = Some callback -> quiet callback.

Lemma updateDeviceState_same (n : Z) (s : St) :
  BLEJoystick.deviceState (fst s) = n ->
  BLEJoystick.updateDeviceState cb n s = (Some tt, s, []).
Proof.
  intros H. unfold BLEJoystick.updateDeviceState. run.
  rewrite H, Z.eqb_refl. reflexivity.
Qed.

(** A genuine change: the member is written, the callback (if any) is
    called once, and the state it returns still holds the new value. *)
Lemma updateDeviceState_change (n : Z) (s : St) :
  BLEJoystick.deviceState (fst s) <> n ->
  exists s' t,
    BLEJoystick.updateDeviceState cb n s = (Some tt, s', t)
    /\ BLEJoystick.deviceState (fst s') = n
    /\ callbacks t = match cb with Some _ => [n] | None => [] end.
Proof.
  intros H. unfold BLEJoystick.updateDeviceState. run.
  destruct (Z.eqb_spec (BLEJoystick.deviceState (fst s)) n) as [E|_];
    [contradiction|]. cbn [negb].
  destruct cb as [callback|] eqn:Ecb.
  - destruct (cb_quiet callback eq_refl
                (BLEJoystick.set_deviceState n (fst s), snd s))
      as (s' & t & Hrun & Hst & Hcb).
    rewrite Hrun. exists s', (CallbackInvoked n :: t).
    split; [reflexivity|]. split; [exact Hst|].
    cbn [callbacks]. rewrite Hcb. reflexivity.
  - eexists _, _. split; [reflexivity|]. split; reflexivity.
Qed.

(** What one request does, by the state it is made in. *)
Lemma start_run (s : St) :
  exists s' t,
    BLEJoystick.start cb s = (Some tt, s', t)
    /\ (BLEJoystick.deviceState (fst s) = BLEJoystick.DEVICE_STOPPED ->
        BLEJoystick.deviceState (fst s') = BLEJoystick.DEVICE_IDLE
        /\ callbacks t
           = match cb with Some _ => [BLEJoystick.DEVICE_IDLE] | None => [] end)
    /\ (BLEJoystick.deviceState (fst s) <> BLEJoystick.DEVICE_STOPPED ->
        s' = s /\ t = []).
Proof.
  unfold BLEJoystick.start. run.
  destruct (Z.eqb_spec (BLEJoystick.deviceState (fst s))
              BLEJoystick.DEVICE_STOPPED) as [E|E].
  - destruct (updateDeviceState_change BLEJoystick.DEVICE_IDLE s)
      as (s' & t & Hrun & Hst & Hcb).
    { rewrite E. discriminate. }
    rewrite Hrun. exists s', t. split; [reflexivity|].
    split; [intros _; split; assumption | intros N; contradiction].
  - exists s, []. split; [reflexivity|].
    split; [intros N; contradiction | intros _; split; reflexivity].
Qed.

Lemma startAdvertising_run (s : St) :
  exists s' t,
    BLEJoystick.startAdvertising cb s = (Some tt, s', t)
    /\ (BLEJoystick.deviceState (fst s) = BLEJoystick.DEVICE_IDLE ->
        BLEJoystick.deviceState (fst s') = BLEJoystick.DEVICE_ADVERTISING
        /\ callbacks t
           = match cb with
             | Some _ => [BLEJoystick.DEVICE_ADVERTISING]
             | None => []
             end)
    /\ (BLEJoystick.deviceState (fst s) <> BLEJoystick.DEVICE_IDLE ->
        s' = s /\ t = []).
Proof.
  unfold BLEJoystick.startAdvertising. run.
  destruct (Z.eqb_spec (BLEJoystick.deviceState (fst s))
              BLEJoystick.DEVICE_IDLE) as [E|E].
  - destruct (updateDeviceState_change BLEJoystick.DEVICE_ADVERTISING s)
      as (s' & t & Hrun & Hst & Hcb).
    { rewrite E. discriminate. }
    rewrite Hrun. exists s', (AdvertisingStart :: t). split; [reflexivity|].
    split; [intros _; split; assumption | intros N; contradiction].
  - exists s, []. split; [reflexivity|].
    split; [intros N; contradiction | intros _; split; reflexivity].
Qed.

Lemma stopAdvertising_run (s : St) :
  exists s' t,
    BLEJoystick.stopAdvertising cb s = (Some tt, s', t)
    /\ (BLEJoystick.deviceState (fst s) = BLEJoystick.DEVICE_ADVERTISING ->
        BLEJoystick.deviceState (fst s') = BLEJoystick.DEVICE_IDLE)
    /\ (BLEJoystick.deviceState (fst s) <> BLEJoystick.DEVICE_ADVERTISING ->
        s' = s /\ t = []).
Proof.
  unfold BLEJoystick.stopAdvertising. run.
  destruct (Z.eqb_spec (BLEJoystick.deviceState (fst s))
              BLEJoystick.DEVICE_ADVERTISING) as [E|E].
  - destruct (updateDeviceState_change BLEJoystick.DEVICE_IDLE s)
      as (s' & t & Hrun & Hst & Hcb).
    { rewrite E. discriminate. }
    rewrite Hrun. exists s', (AdvertisingStop :: t). split; [reflexivity|].
    split; [intros _; assumption | intros N; contradiction].
  - exists s, []. split; [reflexivity|].
    split; [intros N; contradiction | intros _; split; reflexivity].
Qed.

Lemma updateDeviceState_run (n : Z) (s : St) :
  exists s' t,
    BLEJoystick.updateDeviceState cb n s = (Some tt, s', t)
    /\ BLEJoystick.deviceState (fst s') = n
    /\ (BLEJoystick.deviceState (fst s) = n -> s' = s /\ t = [])
    /\ (BLEJoystick.deviceState (fst s) <> n ->
        callbacks t = match cb with Some _ => [n] | None => [] end).
Proof.
  destruct (Z.eq_dec (BLEJoystick.deviceState (fst s)) n) as [E|E].
  - exists s, []. rewrite (updateDeviceState_same n s E).
    split; [reflexivity|]. split; [exact E|].
    split; [intros _; split; reflexivity | intros N; contradiction].
  - destruct (updateDeviceState_change n s E) as (s' & t & Hrun & Hst & Hcb).
    exists s', t. split; [exact Hrun|]. split; [exact Hst|].
    split; [intros N; contradiction | intros _; exact Hcb].
Qed.

Lemma stop_run (s : St) :
  exists s' t,
    BLEJoystick.stop cb s = (Some tt, s', t)
    /\ BLEJoystick.deviceState (fst s') = BLEJoystick.DEVICE_STOPPED
    /\ (BLEJoystick.deviceState (fst s) = BLEJoystick.DEVICE_STOPPED ->
        s' = s /\ t = []).
Proof.
  unfold BLEJoystick.stop. run.
  destruct (Z.eqb_spec (BLEJoystick.deviceState (fst s))
              BLEJoystick.DEVICE_STOPPED) as [E|E]; cbn [negb].
  - exists s, []. repeat split; assumption.
  - destruct (stopAdvertising_run s) as (s1 & t1 & Hrun1 & _ & _).
    destruct (updateDeviceState_run BLEJoystick.DEVICE_STOPPED s1)
      as (s2 & t2 & Hrun2 & Hst & _ & _).
    rewrite Hrun1, Hrun2. exists s2, (t1 ++ t2).
    split; [reflexivity|]. split; [exact Hst | intros N; contradiction].
Qed.

End StateMachine.

(** [joystickStateCallback] returns, sends no report, and leaves the
    device state as it found it. *)
Lemma joystickStateCallback_quiet : quiet joystickStateCallback.
Proof.
  intros [j g]. unfold joystickStateCallback, lightOn, lightOff, millis,
    digitalWrite, BLEJoystick.setBatteryLevel, BLEJoystick.notifyBatteryLevel.
  run.
  destruct (BLEJoystick.deviceState j =? BLEJoystick.DEVICE_IDLE);
    [run; eexists _, _; repeat split|].
  destruct (BLEJoystick.deviceState j =? BLEJoystick.DEVICE_ADVERTISING);
    [run; eexists _, _; repeat split|].
  destruct (BLEJoystick.deviceState j =? BLEJoystick.DEVICE_CONNECTED) eqn:E;
    [|run; eexists _, _; repeat split].
  run. cbn [BLEJoystick.deviceState BLEJoystick.set_batteryLevel].
  rewrite E. run.
  eexists _, _; repeat split.
Qed.

Lemma quiet_registered :
  forall callback, registered = Some callback -> quiet callback.
Proof.
  intros callback E. injection E as <-. exact joystickStateCallback_quiet.
Qed.

Section Transitions.

Context {W : Type}.
Local Abbreviation St := (BLEJoystick.St (W := W)).

Lemma quiet_some (callback : M St unit) :
  quiet callback ->
  forall c, Some callback = Some c -> quiet c.
Proof. intros Hq c E. injection E as <-. exact Hq. Qed.

(** C3. From Stopped, [start()], then [startAdvertising()], then a
    transport connect event, with a registered callback that returns and
    does not itself request a transition: the sequence returns, the device
    is Connected, and the callback was called exactly three times, in the
    states Idle, Advertising, Connected, each different from the state
    before it. *)
Theorem start_advertise_connect :
  forall (callback : M St unit) (s : St),
    quiet callback ->
    BLEJoystick.deviceState (fst s) = BLEJoystick.DEVICE_STOPPED ->
    exists s' t,
      (BLEJoystick.start (Some callback) ;;
       BLEJoystick.startAdvertising (Some callback) ;;
       BLEJoystick.onConnect (Some callback)) s = (Some tt, s', t)
      /\ BLEJoystick.deviceState (fst s') = BLEJoystick.DEVICE_CONNECTED
      /\ callbacks t = [BLEJoystick.DEVICE_IDLE;
                        BLEJoystick.DEVICE_ADVERTISING;
                        BLEJoystick.DEVICE_CONNECTED]
      /\ length (callbacks t) = 3%nat
      /\ each_differs BLEJoystick.DEVICE_STOPPED (callbacks t).
Proof.
  intros callback s Hq Hs.
  pose proof (quiet_some callback Hq) as Hcb.
  destruct (start_run (Some callback) Hcb s) as (s1 & t1 & R1 & [H1 C1] & _);
    [exact Hs|].
  destruct (startAdvertising_run (Some callback) Hcb s1)
    as (s2 & t2 & R2 & [H2 C2] & _); [exact H1|].
  destruct (updateDeviceState_run (Some callback) Hcb
              BLEJoystick.DEVICE_CONNECTED s2) as (s3 & t3 & R3 & H3 & _ & C3).
  exists s3, (t1 ++ t2 ++ t3).
  assert (Ht : callbacks (t1 ++ t2 ++ t3)
               = [BLEJoystick.DEVICE_IDLE; BLEJoystick.DEVICE_ADVERTISING;
                  BLEJoystick.DEVICE_CONNECTED]).
  { rewrite !callbacks_app, C1, C2, C3; [reflexivity|].
    rewrite H2. discriminate. }
  split.
  - eapply bind_run; [exact R1|]. eapply bind_run; [exact R2|]. exact R3.
  - split; [exact H3|]. split; [exact Ht|]. rewrite Ht.
    split; [reflexivity|]. cbn. repeat split; discriminate.
Qed.

(** C4. A transition request that leaves the device state as it was does
    nothing at all: it returns, the whole state is unchanged, and nothing is
    sent and no callback is called.  In particular [updateDeviceState] to
    the current state and [startAdvertising()] while Advertising do
    nothing, and two [startAdvertising()] calls in a row from Idle call the
    callback exactly once. *)
Theorem redundant_transition_noop :
  forall (callback : M St unit) (s : St),
    quiet callback ->
    let cb := Some callback in
    (forall r : Request,
        BLEJoystick.deviceState (fst (final (request cb r s)))
        = BLEJoystick.deviceState (fst s) ->
        request cb r s = (Some tt, s, []))
    /\ (forall n : Z,
           BLEJoystick.deviceState (fst s) = n ->
           BLEJoystick.updateDeviceState cb n s = (Some tt, s, []))
    /\ (BLEJoystick.deviceState (fst s) = BLEJoystick.DEVICE_ADVERTISING ->
        BLEJoystick.startAdvertising cb s = (Some tt, s, []))
    /\ (BLEJoystick.deviceState (fst s) = BLEJoystick.DEVICE_IDLE ->
        exists s' t,
          (BLEJoystick.startAdvertising cb ;;
           BLEJoystick.startAdvertising cb) s = (Some tt, s', t)
          /\ BLEJoystick.startAdvertising cb s = (Some tt, s', t)
          /\ BLEJoystick.deviceState (fst s') = BLEJoystick.DEVICE_ADVERTISING
          /\ callbacks t = [BLEJoystick.DEVICE_ADVERTISING]).
Proof.
  intros callback s Hq cb.
  pose proof (quiet_some callback Hq) as Hcb. fold cb in Hcb.
  split; [|split; [|split]].
  - intros r Hsame.
    destruct r; cbn [request] in *.
    + destruct (start_run cb Hcb s) as (s' & t & R & Hyes & Hno).
      rewrite R in *. cbn [final fst snd] in Hsame.
      destruct (Z.eq_dec (BLEJoystick.deviceState (fst s))
                  BLEJoystick.DEVICE_STOPPED) as [E|E].
      * destruct (Hyes E) as [Hst _]. rewrite Hst, E in Hsame. discriminate.
      * destruct (Hno E) as [-> ->]. reflexivity.
    + destruct (stop_run cb Hcb s) as (s' & t & R & Hst & Hno).
      rewrite R in *. cbn [final fst snd] in Hsame.
      rewrite Hst in Hsame. destruct (Hno (eq_sym Hsame)) as [-> ->].
      reflexivity.
    + destruct (startAdvertising_run cb Hcb s) as (s' & t & R & Hyes & Hno).
      rewrite R in *. cbn [final fst snd] in Hsame.
      destruct (Z.eq_dec (BLEJoystick.deviceState (fst s))
                  BLEJoystick.DEVICE_IDLE) as [E|E].
      * destruct (Hyes E) as [Hst _]. rewrite Hst, E in Hsame. discriminate.
      * destruct (Hno E) as [-> ->]. reflexivity.
    + destruct (stopAdvertising_run cb Hcb s) as (s' & t & R & Hyes & Hno).
      rewrite R in *. cbn [final fst snd] in Hsame.
      destruct (Z.eq_dec (BLEJoystick.deviceState (fst s))
                  BLEJoystick.DEVICE_ADVERTISING) as [E|E].
      * rewrite (Hyes E), E in Hsame. discriminate.
      * destruct (Hno E) as [-> ->]. reflexivity.
    + unfold BLEJoystick.onConnect in *.
      destruct (updateDeviceState_run cb Hcb BLEJoystick.DEVICE_CONNECTED s)
        as (s' & t & R & Hst & Hyes & _).
      rewrite R in *. cbn [final fst snd] in Hsame.
      rewrite Hst in Hsame. destruct (Hyes (eq_sym Hsame)) as [-> ->].
      reflexivity.
    + unfold BLEJoystick.onDisconnect in *.
      destruct (updateDeviceState_run cb Hcb BLEJoystick.DEVICE_IDLE s)
        as (s' & t & R & Hst & Hyes & _).
      rewrite R in *. cbn [final fst snd] in Hsame.
      rewrite Hst in Hsame. destruct (Hyes (eq_sym Hsame)) as [-> ->].
      reflexivity.
  - intros n E. apply updateDeviceState_same. exact E.
  - intros E.
    destruct (startAdvertising_run cb Hcb s) as (s' & t & R & _ & Hno).
    rewrite R. destruct Hno as [-> ->]; [rewrite E; discriminate|].
    reflexivity.
  - intros E.
    destruct (startAdvertising_run cb Hcb s) as (s1 & t1 & R1 & Hyes & _).
    destruct (Hyes E) as [H1 C1].
    destruct (startAdvertising_run cb Hcb s1) as (s2 & t2 & R2 & _ & Hno).
    destruct Hno as [-> ->]; [rewrite H1; discriminate|].
    exists s1, t1. split; [|split; [exact R1|split; [exact H1|exact C1]]].
    rewrite <- (app_nil_r t1).
    eapply bind_run; [exact R1 | exact R2].
Qed.

End Transitions.

(** ** The idle timeout *)

Lemma to_uint32_small (t : Z) : 0 <= t < 2 ^ 32 -> to_uint32 t = t.
Proof. intros H. apply Z.mod_small. exact H. Qed.

(** What [powerOff] does: four writes to the power key, 300 ms, and the
    deep sleep that ends the program. *)
Lemma powerOff_run (s : System) :
  powerOff s
  = (None, elapse 300 s,
     [DigitalWrite POWER_KEY_PIN LOW; DigitalWrite POWER_KEY_PIN HIGH;
      DigitalWrite POWER_KEY_PIN LOW; DigitalWrite POWER_KEY_PIN HIGH;
      DeepSleep]).
Proof.
  destruct s as [j g]. destruct g. unfold powerOff, delay, digitalWrite,
    esp_deep_sleep_start, elapse. run.
  cbn [clock set_clock buttonState prevButtonState lastActivityTime
       advertisingStartTime batteryLevel prevBatteryLevel lastBatteryCheck].
  rewrite <- !Z.add_assoc. reflexivity.
Qed.

(** [checkTimers] in Idle: the outcome is decided by the strict comparison
    of the elapsed time with [IDLE_TIMEOUT]. *)
Lemma checkTimers_idle (s : System) :
  BLEJoystick.deviceState (fst s) = BLEJoystick.DEVICE_IDLE ->
  checkTimers s
  = if to_uint32 (to_uint32 (clock (snd s)) - lastActivityTime (snd s))
       >? IDLE_TIMEOUT
    then powerOff s
    else (Some tt, s, []).
Proof.
  intros H. destruct s as [j g]. cbn [fst snd] in *.
  unfold checkTimers, millis. run_at H.
  destruct (to_uint32 (to_uint32 (clock g) - lastActivityTime g)
            >? IDLE_TIMEOUT).
  - rewrite powerOff_run. reflexivity.
  - run_at H. reflexivity.
Qed.

(** At t = 30000 exactly the timer check does not power down. *)
Lemma no_power_down_at_30000 :
  let s := elapse 30000 idle_since_0 in
  BLEJoystick.deviceState (fst s) = BLEJoystick.DEVICE_IDLE
  /\ lastActivityTime (snd s) = 0
  /\ millis s = (Some 30000, s, [])
  /\ checkTimers s = (Some tt, s, [])
  /\ sleeps (trace (checkTimers s)) = 0%nat.
Proof. vm_compute. repeat split. Qed.

(** C5, as the code has it. Idle since time 0 ([lastActivityTime] = 0)
    with nothing happening since: the timer check at time t (a reading of
    the 32-bit millisecond counter) does nothing at all when t <= 30000,
    and when t > 30000 it powers down: it drives the power key, enters
    deep sleep once, and the program ends there. *)
Theorem idle_timeout_strict :
  forall (s : System) (t : Z),
    BLEJoystick.deviceState (fst s) = BLEJoystick.DEVICE_IDLE ->
    lastActivityTime (snd s) = 0 ->
    clock (snd s) = t ->
    0 <= t < 2 ^ 32 ->
    (t <= 30000 -> checkTimers s = (Some tt, s, []))
    /\ (30000 < t ->
        checkTimers s = powerOff s
        /\ result (checkTimers s) = None
        /\ sleeps (trace (checkTimers s)) = 1%nat
        /\ last (trace (checkTimers s)) AdvertisingStop = DeepSleep).
Proof.
  intros s t Hst Hlat Hclk Ht.
  rewrite (checkTimers_idle s Hst), Hlat, Hclk, Z.sub_0_r.
  rewrite (to_uint32_small t Ht), (to_uint32_small t Ht).
  unfold IDLE_TIMEOUT. split; intros H.
  - destruct (Z.gtb_spec t 30000); [lia | reflexivity].
  - destruct (Z.gtb_spec t 30000); [|lia].
    rewrite powerOff_run. repeat split.
Qed.

(** ** One iteration of [loop] *)

Lemma readNESController_run (data : nat -> bool) (s : System) :
  readNESController data s
  = (Some tt, (fst s, set_buttonState (sample data) (snd s)), read_pulses).
Proof.
  destruct s as [j g]. destruct g as [cur prev lat ast bl pbl lbc clk].
  unfold readNESController, digitalWrite. cbn [seq forM_]. run.
  reflexivity.
Qed.

Lemma set8_get8 (a : Bool8) (i : nat) : set8 i (get8 a i) a = a.
Proof.
  destruct a. do 8 (destruct i as [|i]; [reflexivity|]). reflexivity.
Qed.

(** One round of the comparison loop is the same as copying position [i]
    and recording whether it differed. *)
Lemma detectChange_step (i : nat) (l : list nat) (changed : bool) (s : System) :
  detectChange (i :: l) changed s
  = detectChange l
      (changed || xorb (get8 (buttonState (snd s)) i)
                       (get8 (prevButtonState (snd s)) i))
      (fst s,
       set_prevButtonState
         (set8 i (get8 (buttonState (snd s)) i) (prevButtonState (snd s)))
         (snd s)).
Proof.
  destruct s as [j g]. destruct g as [cur prev lat ast bl pbl lbc clk].
  cbn [detectChange]. run.
  cbn [buttonState prevButtonState set_prevButtonState].
  destruct (get8 cur i) eqn:Ec, (get8 prev i) eqn:Ep;
    cbn [Bool.eqb negb xorb];
    rewrite ?orb_false_r, ?orb_true_r;
    try (rewrite <- Ep, set8_get8);
    run; unfold set_prevButtonState;
    cbn [buttonState prevButtonState lastActivityTime advertisingStartTime
         batteryLevel prevBatteryLevel lastBatteryCheck clock];
    rewrite ?Ec;
    match goal with
    | |- context [detectChange l ?c ?st] =>
        destruct (detectChange l c st) as [[r s'] t]
    end; reflexivity.
Qed.

Lemma differ_false (a b : Bool8) : differ a b = false -> a = b.
Proof.
  destruct a, b. unfold differ. cbn [at0 at1 at2 at3 at4 at5 at6 at7].
  intros H.
  repeat (apply orb_false_elim in H; destruct H as [H ?]).
  repeat match goal with X : xorb _ _ = false |- _ =>
    apply xorb_eq in X; subst end.
  reflexivity.
Qed.

Lemma differ_true (a b : Bool8) : a <> b -> differ a b = true.
Proof.
  intros N. destruct (differ a b) eqn:E; [reflexivity|].
  elim N. apply differ_false. exact E.
Qed.

(** The comparison loop: it reports whether the new snapshot differs from
    the previous one, and the previous one becomes the new one. *)
Lemma detectChange_run (s : System) :
  detectChange (seq 0 8) false s
  = (Some (differ (buttonState (snd s)) (prevButtonState (snd s))),
     (fst s, set_prevButtonState (buttonState (snd s)) (snd s)), []).
Proof.
  cbn [seq]. rewrite !detectChange_step.
  destruct s as [j g]. destruct g as [cur prev lat ast bl pbl lbc clk].
  destruct cur, prev. reflexivity.
Qed.

(** ** An invariant of the program: the axes are never written *)

Section Keeps.

Context {S : Type} (P : S -> Prop).

Lemma keeps_ret {A : Type} (a : A) : keeps P (ret a).
Proof. intros s r s' t E H. injection E as _ <- _. exact H. Qed.

Lemma keeps_gets {A : Type} (f : S -> A) : keeps P (gets f).
Proof. intros s r s' t E H. injection E as _ <- _. exact H. Qed.

Lemma keeps_emit (e : Event) : keeps P (emit e).
Proof. intros s r s' t E H. injection E as _ <- _. exact H. Qed.

Lemma keeps_modify (f : S -> S) :
  (forall s, P s -> P (f s)) -> keeps P (modify f).
Proof. intros Hf s r s' t E H. injection E as _ <- _. apply Hf, H. Qed.

Lemma keeps_bind {A B : Type} (m : M S A) (k : A -> M S B) :
  keeps P m -> (forall a, keeps P (k a)) -> keeps P (bind m k).
Proof.
  intros Hm Hk s r s' t E H. unfold bind in E.
  destruct (m s) as [[[a|] s1] t1] eqn:Em.
  - destruct (k a s1) as [[r2 s2] t2] eqn:Ek. injection E as _ <- _.
    exact (Hk a s1 r2 s2 t2 Ek (Hm s (Some a) s1 t1 Em H)).
  - injection E as _ <- _. exact (Hm s None s1 t1 Em H).
Qed.

Lemma keeps_forM_ {A : Type} (l : list A) (body : A -> M S unit) :
  (forall a, keeps P (body a)) -> keeps P (forM_ l body).
Proof.
  intros Hb. induction l as [|a l IH]; cbn [forM_].
  - apply keeps_ret.
  - apply keeps_bind; [apply Hb | intros _; exact IH].
Qed.

End Keeps.

(** Decomposes a [keeps] goal along the structure of the code. *)
Ltac keeps_step :=
  first
    [ apply keeps_ret | apply keeps_gets | apply keeps_emit
    | apply keeps_modify; intros [? ?] ?; assumption
    | apply keeps_bind; [|intros ?]
    | apply keeps_forM_; intros ?
    | match goal with
      | |- keeps _ (if ?b then _ else _) => destruct b
      | |- keeps _ (match ?o with Some _ => _ | None => _ end) => destruct o
      end
    | assumption ].

Ltac keeps_all := repeat keeps_step.

Section KeepsAxes.

Context {W : Type}.
Local Abbreviation St := (BLEJoystick.St (W := W)).

Variable cb : option (M St unit).
Hypothesis cb_keeps : forall callback, cb = Some callback -> keeps axes_zero callback.

Lemma keeps_updateDeviceState (n : Z) :
  keeps axes_zero (BLEJoystick.updateDeviceState cb n).
Proof.
  unfold BLEJoystick.updateDeviceState, BLEJoystick.this, BLEJoystick.assign.
  destruct cb as [callback|] eqn:E.
  - pose proof (cb_keeps callback eq_refl). keeps_all.
  - keeps_all.
Qed.

Lemma keeps_start : keeps axes_zero (BLEJoystick.start cb).
Proof.
  pose proof keeps_updateDeviceState.
  unfold BLEJoystick.start, BLEJoystick.this. keeps_all. auto.
Qed.

Lemma keeps_startAdvertising : keeps axes_zero (BLEJoystick.startAdvertising cb).
Proof.
  pose proof keeps_updateDeviceState.
  unfold BLEJoystick.startAdvertising, BLEJoystick.this. keeps_all. auto.
Qed.

Lemma keeps_stopAdvertising : keeps axes_zero (BLEJoystick.stopAdvertising cb).
Proof.
  pose proof keeps_updateDeviceState.
  unfold BLEJoystick.stopAdvertising, BLEJoystick.this. keeps_all. auto.
Qed.

End KeepsAxes.

Lemma keeps_setHat {W : Type} (h : Z) :
  keeps (axes_zero (W := W)) (BLEJoystick.setHat h).
Proof. unfold BLEJoystick.setHat, BLEJoystick.assign. keeps_all. Qed.

Lemma keeps_setButtons {W : Type} (b1 b2 b3 b4 b5 b6 b7 b8 b9 b10 b11 b12 : bool) :
  keeps (axes_zero (W := W))
    (BLEJoystick.setButtons b1 b2 b3 b4 b5 b6 b7 b8 b9 b10 b11 b12).
Proof. unfold BLEJoystick.setButtons, BLEJoystick.assign. keeps_all. Qed.

Lemma keeps_setBatteryLevel {W : Type} (l : Z) :
  keeps (axes_zero (W := W)) (BLEJoystick.setBatteryLevel l).
Proof. unfold BLEJoystick.setBatteryLevel, BLEJoystick.assign. keeps_all. Qed.

Lemma keeps_notifyHIDReport {W : Type} :
  keeps (axes_zero (W := W)) BLEJoystick.notifyHIDReport.
Proof. unfold BLEJoystick.notifyHIDReport, BLEJoystick.this. keeps_all. Qed.

Lemma keeps_notifyBatteryLevel {W : Type} :
  keeps (axes_zero (W := W)) BLEJoystick.notifyBatteryLevel.
Proof. unfold BLEJoystick.notifyBatteryLevel, BLEJoystick.this. keeps_all. Qed.

Lemma keeps_millis : keeps axes_zero millis.
Proof. unfold millis, global. keeps_all. Qed.

Lemma keeps_store (f : Globals -> Globals) : keeps axes_zero (store f).
Proof. unfold store. keeps_all. Qed.

Lemma keeps_digitalWrite (pin : Z) (level : bool) :
  keeps axes_zero (digitalWrite pin level).
Proof. unfold digitalWrite. keeps_all. Qed.

Lemma keeps_esp_deep_sleep_start {A : Type} :
  keeps axes_zero (esp_deep_sleep_start (A := A)).
Proof. intros s r s' t E H. injection E as _ <- _. exact H. Qed.

Lemma keeps_powerOff : keeps axes_zero powerOff.
Proof.
  intros s r s' t E H. rewrite powerOff_run in E. injection E as _ <- _.
  exact H.
Qed.

Create HintDb keeps.
#[local] Hint Resolve keeps_esp_deep_sleep_start keeps_setHat keeps_setButtons keeps_setBatteryLevel
  keeps_notifyHIDReport keeps_notifyBatteryLevel keeps_millis keeps_store
  keeps_digitalWrite keeps_powerOff : keeps.

Lemma keeps_joystickStateCallback : keeps axes_zero joystickStateCallback.
Proof.
  unfold joystickStateCallback, BLEJoystick.getState, BLEJoystick.this,
    lightOn, lightOff, global.
  keeps_all; auto with keeps.
Qed.

Lemma keeps_registered :
  forall callback, registered = Some callback -> keeps axes_zero callback.
Proof.
  intros callback E. injection E as <-. exact keeps_joystickStateCallback.
Qed.

Lemma keeps_readNESController (data : nat -> bool) :
  keeps axes_zero (readNESController data).
Proof. unfold readNESController. keeps_all; auto with keeps. Qed.

Lemma keeps_detectChange (l : list nat) (c : bool) :
  keeps axes_zero (detectChange l c).
Proof.
  revert c. induction l as [|i l IH]; intros c; cbn [detectChange].
  - apply keeps_ret.
  - unfold global. keeps_all; auto with keeps.
Qed.

Lemma keeps_updateJoystick : keeps axes_zero updateJoystick.
Proof.
  pose proof (keeps_startAdvertising registered keeps_registered).
  unfold updateJoystick, BLEJoystick.getState, BLEJoystick.this, global.
  keeps_all; auto with keeps.
Qed.

Lemma keeps_checkBattery (percentage : Z) :
  keeps axes_zero (checkBattery percentage).
Proof.
  unfold checkBattery, readBatteryLevel, BLEJoystick.getState,
    BLEJoystick.this, global.
  keeps_all; auto with keeps.
Qed.

Lemma keeps_checkTimers : keeps axes_zero checkTimers.
Proof.
  pose proof (keeps_stopAdvertising registered keeps_registered).
  unfold checkTimers, lightOff, BLEJoystick.getState, BLEJoystick.this, global.
  keeps_all; auto with keeps.
Qed.

Lemma keeps_loop (data : nat -> bool) (percentage : Z) :
  keeps axes_zero (loop data percentage).
Proof.
  pose proof (keeps_readNESController data).
  pose proof (keeps_detectChange (seq 0 8) false).
  pose proof keeps_updateJoystick.
  pose proof (keeps_checkBattery percentage).
  pose proof keeps_checkTimers.
  unfold loop, delay. keeps_all; auto with keeps.
Qed.

Lemma reachable_axes_zero (s : System) : reachable s -> axes_zero s.
Proof.
  induction 1 as [p s t E | data p s s' t _ IH E | s s' t _ IH E
                 | s s' t _ IH E | ms s _ IH _].
  - revert E. vm_compute. intros E. injection E as <- _. reflexivity.
  - exact (keeps_loop data p s _ s' t E IH).
  - exact (keeps_updateDeviceState registered keeps_registered _ s _ s' t E IH).
  - exact (keeps_updateDeviceState registered keeps_registered _ s _ s' t E IH).
  - exact IH.
Qed.

(** ** The report of one iteration *)

Lemma updateJoystick_connected (s : System) :
  BLEJoystick.deviceState (fst s) = BLEJoystick.DEVICE_CONNECTED ->
  updateJoystick s
  = (Some tt,
     (updated (buttonState (snd s)) (fst s),
      set_lastActivityTime (to_uint32 (clock (snd s))) (snd s)),
     [InputNotify
        (BLEJoystick.report (updated (buttonState (snd s)) (fst s)))]).
Proof.
  intros H. destruct s as [j g]. cbn [fst snd] in *.
  unfold updateJoystick, updated, BLEJoystick.setHat, BLEJoystick.setButtons,
    BLEJoystick.notifyHIDReport, millis.
  run_at H.
  unfold BLEJoystick.set_buttons, BLEJoystick.set_hat.
  cbn [BLEJoystick.deviceState]. run_at H. reflexivity.
Qed.

Lemma updated_deviceState (b : Bool8) (j : BLEJoystick.t) :
  BLEJoystick.deviceState (updated b j) = BLEJoystick.deviceState j.
Proof. reflexivity. Qed.

(** With only A pressed and zero axes the report is 01 00 00 00 00. *)
Lemma report_a_only (j : BLEJoystick.t) :
  BLEJoystick.axes j = repeat 0 8 ->
  BLEJoystick.report (updated a_only j) = [1; 0; 0; 0; 0].
Proof.
  intros H. unfold BLEJoystick.report, updated, a_only, BLEJoystick.setHat,
    BLEJoystick.setButtons. run.
  unfold BLEJoystick.set_buttons, BLEJoystick.set_hat.
  cbn [BLEJoystick.axes BLEJoystick.buttons BLEJoystick.hat].
  rewrite H. reflexivity.
Qed.

(** The battery check always returns; it sends no input report, calls no
    callback and leaves the joystick state and axes readable as before. *)
Lemma checkBattery_run (percentage : Z) (s : System) :
  exists s' t,
    checkBattery percentage s = (Some tt, s', t)
    /\ reports t = []
    /\ BLEJoystick.deviceState (fst s') = BLEJoystick.deviceState (fst s)
    /\ BLEJoystick.report (fst s') = BLEJoystick.report (fst s).
Proof.
  destruct s as [j g].
  unfold checkBattery, readBatteryLevel, millis,
    BLEJoystick.setBatteryLevel, BLEJoystick.notifyBatteryLevel.
  run.
  destruct (to_uint32 (to_uint32 (clock g) - lastBatteryCheck g) >? 5000);
    run; [|eexists _, _; repeat split].
  cbn [prevBatteryLevel set_batteryLevel].
  destruct (negb (percentage =? prevBatteryLevel g)
            && (BLEJoystick.deviceState j =? BLEJoystick.DEVICE_CONNECTED));
    run; [|eexists _, _; repeat split].
  cbn [BLEJoystick.deviceState BLEJoystick.set_batteryLevel].
  destruct (BLEJoystick.deviceState j =? BLEJoystick.DEVICE_CONNECTED);
    run; eexists _, _; repeat split.
Qed.

Lemma checkTimers_connected (s : System) :
  BLEJoystick.deviceState (fst s) = BLEJoystick.DEVICE_CONNECTED ->
  checkTimers s = (Some tt, s, []).
Proof.
  intros H. destruct s as [j g]. cbn [fst snd] in *.
  unfold checkTimers, millis. run_at H. reflexivity.
Qed.

Lemma reports_read_pulses : reports read_pulses = [].
Proof. reflexivity. Qed.

(** C9. In any state the program reaches with the device Connected, an
    iteration of [loop] that samples only the A button pressed returns,
    and when that snapshot is new (it differs from the previous one) it
    sends exactly one input report, with bytes 01 00 00 00 00, and the
    members then encode that report; when the snapshot is not new the
    iteration sends no report. *)
Theorem a_button_report :
  forall (s : System) (data : nat -> bool) (percentage : Z),
    reachable s ->
    BLEJoystick.deviceState (fst s) = BLEJoystick.DEVICE_CONNECTED ->
    sample data = a_only ->
    exists s' t,
      loop data percentage s = (Some tt, s', t)
      /\ BLEJoystick.deviceState (fst s') = BLEJoystick.DEVICE_CONNECTED
      /\ (prevButtonState (snd s) <> a_only ->
          reports t = [[1; 0; 0; 0; 0]]
          /\ BLEJoystick.report (fst s') = [1; 0; 0; 0; 0])
      /\ (prevButtonState (snd s) = a_only -> reports t = []).
Proof.
  intros s data percentage Hreach Hst Hdata.
  pose proof (reachable_axes_zero s Hreach) as Hax.
  destruct s as [j g]. cbn [fst snd] in *. unfold axes_zero in Hax.
  cbn [fst] in Hax.
  set (g1 := set_buttonState a_only g).
  set (g2 := set_prevButtonState a_only g1).
  assert (Eprev : prevButtonState g1 = prevButtonState g)
    by (destruct g; reflexivity).
  assert (R1 : readNESController data (j, g) = (Some tt, (j, g1), read_pulses)).
  { rewrite readNESController_run, Hdata. reflexivity. }
  assert (R2 : detectChange (seq 0 8) false (j, g1)
               = (Some (differ a_only (prevButtonState g)), (j, g2), [])).
  { rewrite detectChange_run. cbn [fst snd]. rewrite Eprev.
    destruct g; reflexivity. }
  destruct (differ a_only (prevButtonState g)) eqn:Ed.
  - (* the snapshot is new *)
    set (s3 := (updated a_only j,
                set_lastActivityTime (to_uint32 (clock g2)) g2) : System).
    assert (R3 : updateJoystick (j, g2)
                 = (Some tt, s3,
                    [InputNotify (BLEJoystick.report (updated a_only j))])).
    { rewrite (updateJoystick_connected (j, g2) Hst). destruct g; reflexivity. }
    destruct (checkBattery_run percentage s3) as (s4 & t4 & R4 & Hr4 & Hs4 & He4).
    assert (Hst4 : BLEJoystick.deviceState (fst s4)
                   = BLEJoystick.DEVICE_CONNECTED)
      by (rewrite Hs4; exact Hst).
    exists (elapse 10 s4), (read_pulses ++ [] ++
              [InputNotify (BLEJoystick.report (updated a_only j))]
              ++ t4 ++ [] ++ []).
    split; [|split; [exact Hst4|split]].
    + unfold loop.
      eapply bind_run; [exact R1|]. eapply bind_run; [exact R2|].
      eapply bind_run; [exact R3|]. eapply bind_run; [exact R4|].
      eapply bind_run; [exact (checkTimers_connected s4 Hst4)|].
      reflexivity.
    + intros _. rewrite !reports_app, reports_read_pulses, Hr4.
      cbn [reports app fst elapse]. rewrite He4. cbn [fst s3].
      rewrite (report_a_only j Hax). split; reflexivity.
    + intros E. rewrite E in Ed. discriminate Ed.
  - (* the snapshot equals the previous one *)
    destruct (checkBattery_run percentage (j, g2))
      as (s4 & t4 & R4 & Hr4 & Hs4 & He4).
    assert (Hst4 : BLEJoystick.deviceState (fst s4)
                   = BLEJoystick.DEVICE_CONNECTED)
      by (rewrite Hs4; exact Hst).
    exists (elapse 10 s4), (read_pulses ++ [] ++ [] ++ t4 ++ [] ++ []).
    split; [|split; [exact Hst4|split]].
    + unfold loop.
      eapply bind_run; [exact R1|]. eapply bind_run; [exact R2|].
      eapply bind_run; [reflexivity|]. eapply bind_run; [exact R4|].
      eapply bind_run; [exact (checkTimers_connected s4 Hst4)|].
      reflexivity.
    + intros N. elim N. symmetry. apply differ_false. exact Ed.
    + intros _. rewrite !reports_app, reports_read_pulses, Hr4. reflexivity.
Qed.

(** ** Concrete runs *)

Lemma reachable_connected : reachable connected.
Proof.
  apply (reach_connect after_setup connected
           (trace (BLEJoystick.onConnect registered after_setup))).
  - apply (reach_setup 80 after_setup (trace (setup 80 power_on))).
    vm_compute. reflexivity.
  - vm_compute. reflexivity.
Defined.

Lemma start_advertise_connect_witness :
  quiet joystickStateCallback
  /\ BLEJoystick.deviceState (fst power_on) = BLEJoystick.DEVICE_STOPPED
  /\ exists s' t,
       (BLEJoystick.start registered ;;
        BLEJoystick.startAdvertising registered ;;
        BLEJoystick.onConnect registered) power_on = (Some tt, s', t)
       /\ BLEJoystick.deviceState (fst s') = BLEJoystick.DEVICE_CONNECTED
       /\ callbacks t = [BLEJoystick.DEVICE_IDLE;
                         BLEJoystick.DEVICE_ADVERTISING;
                         BLEJoystick.DEVICE_CONNECTED]
       /\ length (callbacks t) = 3%nat
       /\ each_differs BLEJoystick.DEVICE_STOPPED (callbacks t).
Proof.
  split; [exact joystickStateCallback_quiet|]. split; [reflexivity|].
  apply (start_advertise_connect joystickStateCallback power_on).
  - exact joystickStateCallback_quiet.
  - reflexivity.
Defined.

Lemma redundant_transition_noop_witness :
  quiet joystickStateCallback
  /\ BLEJoystick.deviceState (fst idle_since_0) = BLEJoystick.DEVICE_IDLE
  /\ BLEJoystick.deviceState (fst after_setup) = BLEJoystick.DEVICE_ADVERTISING
  /\ BLEJoystick.startAdvertising registered after_setup
     = (Some tt, after_setup, [])
  /\ exists s' t,
       (BLEJoystick.startAdvertising registered ;;
        BLEJoystick.startAdvertising registered) idle_since_0
       = (Some tt, s', t)
       /\ BLEJoystick.startAdvertising registered idle_since_0 = (Some tt, s', t)
       /\ BLEJoystick.deviceState (fst s') = BLEJoystick.DEVICE_ADVERTISING
       /\ callbacks t = [BLEJoystick.DEVICE_ADVERTISING].
Proof.
  split; [exact joystickStateCallback_quiet|]. split; [reflexivity|].
  split; [reflexivity|]. split.
  - apply (redundant_transition_noop joystickStateCallback after_setup
             joystickStateCallback_quiet).
    reflexivity.
  - apply (redundant_transition_noop joystickStateCallback idle_since_0
             joystickStateCallback_quiet).
    reflexivity.
Defined.

Lemma idle_timeout_strict_witness :
  let s := elapse 30001 idle_since_0 in
  BLEJoystick.deviceState (fst s) = BLEJoystick.DEVICE_IDLE
  /\ lastActivityTime (snd s) = 0
  /\ clock (snd s) = 30001
  /\ checkTimers s = powerOff s
  /\ result (checkTimers s) = None
  /\ sleeps (trace (checkTimers s)) = 1%nat
  /\ last (trace (checkTimers s)) AdvertisingStop = DeepSleep.
Proof.
  intros s. split; [reflexivity|]. split; [reflexivity|]. split; [reflexivity|].
  apply (idle_timeout_strict s 30001); try reflexivity; lia.
Defined.

Lemma notify_only_when_connected_witness :
  (BLEJoystick.notifyHIDReport after_setup = (Some tt, after_setup, [])
   /\ BLEJoystick.notifyBatteryLevel after_setup = (Some tt, after_setup, []))
  /\ (BLEJoystick.notifyHIDReport connected
      = (Some tt, connected, [InputNotify (BLEJoystick.report (fst connected))])
      /\ BLEJoystick.notifyBatteryLevel connected
         = (Some tt, connected,
            [BatteryNotify (BLEJoystick.batteryLevel (fst connected))])).
Proof.
  split.
  - apply (notify_only_when_connected after_setup). discriminate.
  - apply (notify_only_when_connected connected). reflexivity.
Defined.

Lemma setHat_clamps_witness :
  BLEJoystick.hat (fst (final (BLEJoystick.setHat 5 connected))) = 5
  /\ BLEJoystick.hat (fst (final (BLEJoystick.setHat 200 connected))) = 0.
Proof.
  split.
  - apply (setHat_clamps 5 connected). lia.
  - apply (setHat_clamps 200 connected). lia.
Defined.

Lemma report_hat_nibble_witness :
  let j := BLEJoystick.set_hat 7 BLEJoystick.BLEJoystick in
  (nth 2 (BLEJoystick.report j) 0 mod 16 = 7
   /\ nth 2 (BLEJoystick.report j) 0 / 16 = 0)
  /\ nth 2 (BLEJoystick.report j) 0 = Z.land 7 15.
Proof.
  intros j. split.
  - apply (report_hat_nibble j). cbn. lia.
  - apply (report_hat_nibble j). cbn. lia.
Defined.

Lemma a_button_report_witness :
  reachable connected
  /\ BLEJoystick.deviceState (fst connected) = BLEJoystick.DEVICE_CONNECTED
  /\ sample a_held = a_only
  /\ exists s' t,
       loop a_held 80 connected = (Some tt, s', t)
       /\ BLEJoystick.deviceState (fst s') = BLEJoystick.DEVICE_CONNECTED
       /\ (prevButtonState (snd connected) <> a_only ->
           reports t = [[1; 0; 0; 0; 0]]
           /\ BLEJoystick.report (fst s') = [1; 0; 0; 0; 0])
       /\ (prevButtonState (snd connected) = a_only -> reports t = []).
Proof.
  split; [exact reachable_connected|]. split; [reflexivity|].
  split; [reflexivity|].
  apply (a_button_report connected a_held 80).
  - exact reachable_connected.
  - reflexivity.
  - reflexivity.
Defined.

(** * Further properties of the code *)

(** ** Setters and the encoder *)

Section Setters.

Context {W : Type}.
Local Abbreviation St := (BLEJoystick.St (W := W)).

(** [setBatteryLevel] behind the [int] to [uint8_t] conversion of its
    callers: the stored level is always a percentage; 0..100 is stored as
    it is, 101..255 is stored as 100, and an [int] outside 0..255 wraps
    first, so that -1 is stored as 100. *)
Theorem setBatteryLevel_percentage :
  forall (level : Z) (s : St),
    let o := BLEJoystick.setBatteryLevel (to_uint8 level) s in
    let stored := BLEJoystick.batteryLevel (fst (final o)) in
    result o = Some tt
    /\ trace o = []
    /\ 0 <= stored <= 100
    /\ (0 <= level <= 100 -> stored = level)
    /\ (100 < level < 256 -> stored = 100)
    /\ (-156 <= level < 0 -> stored = 100)
    /\ final o = (BLEJoystick.set_batteryLevel stored (fst s), snd s).
Proof.
  intros level s o stored. subst o stored.
  unfold BLEJoystick.setBatteryLevel. run.
  cbn [BLEJoystick.batteryLevel BLEJoystick.set_batteryLevel].
  unfold to_uint8.
  pose proof (Z.mod_pos_bound level 256 ltac:(lia)) as Hm.
  destruct (Z.gtb_spec (level mod 256) 100) as [Hgt|Hle].
  - repeat match goal with |- _ /\ _ => split end; try reflexivity; try lia.
    intros H. rewrite Z.mod_small in Hgt by lia. lia.
  - repeat match goal with |- _ /\ _ => split end; try reflexivity; try lia.
    + intros H. apply Z.mod_small. lia.
    + intros H. rewrite Z.mod_small in Hle by lia. lia.
    + intros H.
      assert (E : level mod 256 = level + 256).
      { symmetry. apply (Z.mod_unique level 256 (-1)); lia. }
      lia.
Qed.


End Setters.

(** ** The hat [loop] derives *)

Lemma dpadDirection_range (b : Bool8) : 0 <= dpadDirection b <= 8.
Proof.
  destruct b as [a bb se st u d l r]. unfold dpadDirection.
  cbn [get8 NES_BUTTON_UP NES_BUTTON_DOWN NES_BUTTON_LEFT NES_BUTTON_RIGHT
       at4 at5 at6 at7].
  destruct u, d, l, r; cbn; lia.
Qed.

(** The derived hat is always a direction 0..8, so [setHat] stores it
    unclamped and byte 2 of the report carries it; it is 0 exactly when
    no directional button is held; and each derived axis is -127, 0 or
    127, zero exactly when neither of its two buttons is held. *)
Theorem dpadDirection_is_a_hat :
  forall (b : Bool8) (s : System),
    let j := fst (final (BLEJoystick.setHat (dpadDirection b) s)) in
    0 <= dpadDirection b <= 8
    /\ BLEJoystick.hat j = dpadDirection b
    /\ nth 2 (BLEJoystick.report j) 0 = dpadDirection b
    /\ (dpadDirection b = 0 <->
        get8 b NES_BUTTON_UP = false /\ get8 b NES_BUTTON_RIGHT = false
        /\ get8 b NES_BUTTON_DOWN = false /\ get8 b NES_BUTTON_LEFT = false)
    /\ (axis_x b = 0 <->
        get8 b NES_BUTTON_LEFT = false /\ get8 b NES_BUTTON_RIGHT = false)
    /\ (axis_y b = 0 <->
        get8 b NES_BUTTON_UP = false /\ get8 b NES_BUTTON_DOWN = false)
    /\ (axis_x b = -127 \/ axis_x b = 0 \/ axis_x b = 127)
    /\ (axis_y b = -127 \/ axis_y b = 0 \/ axis_y b = 127).
Proof.
  intros b s j. subst j.
  pose proof (dpadDirection_range b) as Hr.
  unfold BLEJoystick.setHat, BLEJoystick.report. run.
  cbn [BLEJoystick.hat BLEJoystick.set_hat nth].
  destruct (Z.leb_spec (dpadDirection b) 8); [|lia].
  split; [exact Hr|]. split; [reflexivity|]. split.
  { unfold to_uint8. rewrite land_15_mod.
    rewrite (Z.mod_small (dpadDirection b) 16) by lia.
    apply Z.mod_small. lia. }
  clear. destruct b as [a bb se st u d l r].
  unfold dpadDirection, axis_x, axis_y.
  cbn [get8 NES_BUTTON_UP NES_BUTTON_DOWN NES_BUTTON_LEFT NES_BUTTON_RIGHT
       at4 at5 at6 at7].
  destruct u, d, l, r; cbn; intuition (try discriminate; try lia).
Qed.

(** ** The transition table *)

Section Table.

Context {W : Type}.
Local Abbreviation St := (BLEJoystick.St (W := W)).

(** The device follows its transition table from every state, the four
    named ones or any other byte: a request returns, the callback is
    called once for each state of [transition], in that order, and the
    device ends in the last of them (or stays where it was).  So [stop]
    while Advertising calls the callback twice, for Idle and for Stopped,
    and a connect or disconnect event is obeyed in any state. *)
Theorem request_follows_table :
  forall (callback : M St unit) (r : Request) (s : St),
    quiet callback ->
    exists s' t,
      request (Some callback) r s = (Some tt, s', t)
      /\ callbacks t = transition r (BLEJoystick.deviceState (fst s))
      /\ BLEJoystick.deviceState (fst s')
         = last (transition r (BLEJoystick.deviceState (fst s)))
                (BLEJoystick.deviceState (fst s)).
Proof.
  intros callback r s Hq.
  pose proof (quiet_some callback Hq) as Hcb.
  set (cb := Some callback) in *.
  destruct r; cbn [request transition].
  - destruct (start_run cb Hcb s) as (s' & t & R & Hyes & Hno).
    exists s', t. split; [exact R|].
    destruct (Z.eqb_spec (BLEJoystick.deviceState (fst s))
                BLEJoystick.DEVICE_STOPPED) as [E|E].
    + destruct (Hyes E) as [-> ->]. split; reflexivity.
    + destruct (Hno E) as [-> ->]. split; reflexivity.
  - unfold BLEJoystick.stop. run.
    destruct (Z.eqb_spec (BLEJoystick.deviceState (fst s))
                BLEJoystick.DEVICE_STOPPED) as [E|E]; cbn [negb].
    + exists s, []. repeat split.
    + unfold BLEJoystick.stopAdvertising. run.
      destruct (Z.eqb_spec (BLEJoystick.deviceState (fst s))
                  BLEJoystick.DEVICE_ADVERTISING) as [A|A].
      * destruct (updateDeviceState_change cb Hcb BLEJoystick.DEVICE_IDLE s)
          as (s1 & t1 & R1 & H1 & C1); [rewrite A; discriminate|].
        destruct (updateDeviceState_change cb Hcb
                    BLEJoystick.DEVICE_STOPPED s1)
          as (s2 & t2 & R2 & H2 & C2); [rewrite H1; discriminate|].
        rewrite R1. cbn [fst snd]. rewrite R2.
        exists s2, (AdvertisingStop :: t1 ++ t2).
        split; [reflexivity|]. split; [|exact H2].
        cbn [callbacks]. rewrite callbacks_app, C1, C2. reflexivity.
      * destruct (updateDeviceState_change cb Hcb
                    BLEJoystick.DEVICE_STOPPED s)
          as (s2 & t2 & R2 & H2 & C2); [exact E|].
        rewrite R2. exists s2, t2.
        split; [reflexivity|]. split; [exact C2 | exact H2].
  - destruct (startAdvertising_run cb Hcb s) as (s' & t & R & Hyes & Hno).
    exists s', t. split; [exact R|].
    destruct (Z.eqb_spec (BLEJoystick.deviceState (fst s))
                BLEJoystick.DEVICE_IDLE) as [E|E].
    + destruct (Hyes E) as [-> ->]. split; reflexivity.
    + destruct (Hno E) as [-> ->]. split; reflexivity.
  - unfold BLEJoystick.stopAdvertising. run.
    destruct (Z.eqb_spec (BLEJoystick.deviceState (fst s))
                BLEJoystick.DEVICE_ADVERTISING) as [A|A].
    + destruct (updateDeviceState_change cb Hcb BLEJoystick.DEVICE_IDLE s)
        as (s1 & t1 & R1 & H1 & C1); [rewrite A; discriminate|].
      rewrite R1. exists s1, (AdvertisingStop :: t1).
      split; [reflexivity|]. split; [exact C1 | exact H1].
    + exists s, []. repeat split.
  - unfold BLEJoystick.onConnect.
    destruct (updateDeviceState_run cb Hcb BLEJoystick.DEVICE_CONNECTED s)
      as (s' & t & R & Hst & Hsame & Hchg).
    exists s', t. split; [exact R|].
    destruct (Z.eqb_spec (BLEJoystick.deviceState (fst s))
                BLEJoystick.DEVICE_CONNECTED) as [E|E].
    + destruct (Hsame E) as [-> ->]. split; reflexivity.
    + split; [exact (Hchg E) | exact Hst].
  - unfold BLEJoystick.onDisconnect.
    destruct (updateDeviceState_run cb Hcb BLEJoystick.DEVICE_IDLE s)
      as (s' & t & R & Hst & Hsame & Hchg).
    exists s', t. split; [exact R|].
    destruct (Z.eqb_spec (BLEJoystick.deviceState (fst s))
                BLEJoystick.DEVICE_IDLE) as [E|E].
    + destruct (Hsame E) as [-> ->]. split; reflexivity.
    + split; [exact (Hchg E) | exact Hst].
Qed.

End Table.

Lemma request_follows_table_witness :
  quiet joystickStateCallback
  /\ exists s' t,
       request registered ReqStop after_setup = (Some tt, s', t)
       /\ callbacks t = [BLEJoystick.DEVICE_IDLE; BLEJoystick.DEVICE_STOPPED]
       /\ BLEJoystick.deviceState (fst s') = BLEJoystick.DEVICE_STOPPED.
Proof.
  split; [exact joystickStateCallback_quiet|].
  exact (request_follows_table joystickStateCallback ReqStop after_setup
           joystickStateCallback_quiet).
Defined.

(** ** Transport events with the registered callback *)

(** The percentage [setBatteryLevel] stores for the [int] global. *)
Lemma clamp_percentage (b : Z) :
  0 <= (if to_uint8 b >? 100 then 100 else to_uint8 b) <= 100.
Proof.
  unfold to_uint8. pose proof (Z.mod_pos_bound b 256 ltac:(lia)).
  destruct (Z.gtb_spec (b mod 256) 100); lia.
Qed.

(** A connect event in any state but Connected: the device becomes
    Connected, the callback is called once, the LED is switched on (the
    pin is active low), the battery level, clamped to a percentage, is
    stored and notified, and the activity timer restarts at the current
    time.  A disconnect event in any state but Idle: the device becomes
    Idle, the LED is switched off and the activity timer restarts, so the
    idle timeout counts from the disconnection. *)
Theorem connect_and_disconnect_events :
  forall s : System,
    let now := to_uint32 (clock (snd s)) in
    let level := if to_uint8 (batteryLevel (snd s)) >? 100 then 100
                 else to_uint8 (batteryLevel (snd s)) in
    (BLEJoystick.deviceState (fst s) <> BLEJoystick.DEVICE_CONNECTED ->
     BLEJoystick.onConnect registered s
     = (Some tt,
        (BLEJoystick.set_batteryLevel level
           (BLEJoystick.set_deviceState BLEJoystick.DEVICE_CONNECTED (fst s)),
         set_lastActivityTime now (snd s)),
        [CallbackInvoked BLEJoystick.DEVICE_CONNECTED;
         DigitalWrite LED0_PIN LOW;
         BatteryNotify level])
     /\ 0 <= level <= 100)
    /\ (BLEJoystick.deviceState (fst s) <> BLEJoystick.DEVICE_IDLE ->
        BLEJoystick.onDisconnect registered s
        = (Some tt,
           (BLEJoystick.set_deviceState BLEJoystick.DEVICE_IDLE (fst s),
            set_lastActivityTime now (snd s)),
           [CallbackInvoked BLEJoystick.DEVICE_IDLE;
            DigitalWrite LED0_PIN HIGH])).
Proof.
  intros [j g] now level. subst now level. cbn [fst snd]. split; intros H.
  - split; [|apply clamp_percentage].
    unfold BLEJoystick.onConnect, BLEJoystick.updateDeviceState, registered,
      joystickStateCallback, lightOn, lightOff, digitalWrite, millis,
      BLEJoystick.setBatteryLevel, BLEJoystick.notifyBatteryLevel.
    run.
    destruct (Z.eqb_spec (BLEJoystick.deviceState j)
                BLEJoystick.DEVICE_CONNECTED) as [E|_]; [contradiction|].
    cbn [negb]. run_states. unfold BLEJoystick.set_deviceState.
    cbn [BLEJoystick.deviceState]. run_states.
    unfold BLEJoystick.set_batteryLevel.
    cbn [BLEJoystick.deviceState BLEJoystick.batteryLevel
         batteryLevel set_lastActivityTime]. run_states.
    reflexivity.
  - unfold BLEJoystick.onDisconnect, BLEJoystick.updateDeviceState, registered,
      joystickStateCallback, lightOn, lightOff, digitalWrite, millis.
    run.
    destruct (Z.eqb_spec (BLEJoystick.deviceState j)
                BLEJoystick.DEVICE_IDLE) as [E|_]; [contradiction|].
    cbn [negb]. run_states. unfold BLEJoystick.set_deviceState.
    cbn [BLEJoystick.deviceState]. run_states.
    reflexivity.
Qed.

Lemma connect_and_disconnect_events_witness :
  BLEJoystick.onConnect registered after_setup
  = (Some tt, connected,
     [CallbackInvoked BLEJoystick.DEVICE_CONNECTED;
      DigitalWrite LED0_PIN LOW; BatteryNotify 80])
  /\ trace (BLEJoystick.onDisconnect registered connected)
     = [CallbackInvoked BLEJoystick.DEVICE_IDLE; DigitalWrite LED0_PIN HIGH].
Proof.
  split.
  - apply (connect_and_disconnect_events after_setup). discriminate.
  - rewrite (proj2 (connect_and_disconnect_events connected));
      [reflexivity | discriminate].
Defined.

(** ** The timers *)

Lemma to_uint32_elapsed (c0 d : Z) :
  0 <= d < 2 ^ 32 ->
  to_uint32 (to_uint32 (c0 + d) - to_uint32 c0) = d.
Proof.
  intros H. unfold to_uint32. rewrite <- Zminus_mod.
  replace (c0 + d - c0) with d by lia. apply Z.mod_small. exact H.
Qed.

(** The idle timeout measures elapsed time correctly across the wrap of
    the 32-bit millisecond counter: if [lastActivityTime] was stored when
    the clock read c0 and d milliseconds (less than 2^32) have passed,
    the check in Idle does nothing when d <= 30000 and powers down when
    d > 30000, wherever c0 lies. *)
Theorem idle_timeout_wrap_safe :
  forall (s : System) (c0 d : Z),
    BLEJoystick.deviceState (fst s) = BLEJoystick.DEVICE_IDLE ->
    lastActivityTime (snd s) = to_uint32 c0 ->
    clock (snd s) = c0 + d ->
    0 <= d < 2 ^ 32 ->
    (d <= 30000 -> checkTimers s = (Some tt, s, []))
    /\ (30000 < d ->
        checkTimers s = powerOff s /\ result (checkTimers s) = None).
Proof.
  intros s c0 d Hst Hlat Hclk Hd.
  rewrite (checkTimers_idle s Hst), Hlat, Hclk, (to_uint32_elapsed c0 d Hd).
  unfold IDLE_TIMEOUT. split; intros H.
  - destruct (Z.gtb_spec d 30000); [lia | reflexivity].
  - destruct (Z.gtb_spec d 30000); [|lia].
    rewrite powerOff_run. split; reflexivity.
Qed.

Lemma idle_timeout_wrap_safe_witness :
  let s := elapse 30001 idle_before_wrap in
  to_uint32 (clock (snd s)) = 29001
  /\ checkTimers s = powerOff s
  /\ result (checkTimers s) = None.
Proof.
  intros s. split; [reflexivity|].
  apply (idle_timeout_wrap_safe s (2 ^ 32 - 1000) 30001);
    try reflexivity; lia.
Defined.

(** [checkTimers] in Advertising: the outcome is decided by the strict
    comparison of the elapsed time with [ADVERTISING_TIMEOUT]. *)
Lemma checkTimers_advertising (s : System) :
  BLEJoystick.deviceState (fst s) = BLEJoystick.DEVICE_ADVERTISING ->
  checkTimers s
  = if to_uint32 (to_uint32 (clock (snd s)) - advertisingStartTime (snd s))
       >? ADVERTISING_TIMEOUT
    then (Some tt,
          (BLEJoystick.set_deviceState BLEJoystick.DEVICE_IDLE (fst s),
           set_lastActivityTime (to_uint32 (clock (snd s))) (snd s)),
          [AdvertisingStop; CallbackInvoked BLEJoystick.DEVICE_IDLE;
           DigitalWrite LED0_PIN HIGH; DigitalWrite LED0_PIN HIGH])
    else (Some tt, s,
          [DigitalWrite LED0_PIN
             ((to_uint32 (clock (snd s)) / 500) mod 2 =? 0)]).
Proof.
  intros H. destruct s as [j g]. cbn [fst snd] in *.
  unfold checkTimers, millis. run_at H.
  destruct (to_uint32 (to_uint32 (clock g) - advertisingStartTime g)
            >? ADVERTISING_TIMEOUT).
  - unfold BLEJoystick.stopAdvertising, BLEJoystick.updateDeviceState,
      registered, joystickStateCallback, lightOff, digitalWrite, millis.
    run_at H. unfold BLEJoystick.set_deviceState.
    cbn [BLEJoystick.deviceState]. run_states. reflexivity.
  - unfold digitalWrite. run_at H. reflexivity.
Qed.

(** The advertising timeout: while Advertising the timer check never
    powers down.  More than 30000 ms after [advertisingStartTime] it stops
    advertising: the device becomes Idle, the LED is switched off and the
    idle timer starts at the current time; otherwise it only drives the
    LED, low (on) in every other half second. *)
Theorem advertising_timeout :
  forall s : System,
    let now := to_uint32 (clock (snd s)) in
    let elapsed := to_uint32 (now - advertisingStartTime (snd s)) in
    BLEJoystick.deviceState (fst s) = BLEJoystick.DEVICE_ADVERTISING ->
    result (checkTimers s) = Some tt
    /\ sleeps (trace (checkTimers s)) = 0%nat
    /\ (30000 < elapsed ->
        checkTimers s
        = (Some tt,
           (BLEJoystick.set_deviceState BLEJoystick.DEVICE_IDLE (fst s),
            set_lastActivityTime now (snd s)),
           [AdvertisingStop; CallbackInvoked BLEJoystick.DEVICE_IDLE;
            DigitalWrite LED0_PIN HIGH; DigitalWrite LED0_PIN HIGH]))
    /\ (elapsed <= 30000 ->
        checkTimers s
        = (Some tt, s, [DigitalWrite LED0_PIN ((now / 500) mod 2 =? 0)])).
Proof.
  intros s now elapsed H. subst now elapsed.
  rewrite (checkTimers_advertising s H). unfold ADVERTISING_TIMEOUT.
  destruct (Z.gtb_spec
              (to_uint32 (to_uint32 (clock (snd s))
                          - advertisingStartTime (snd s))) 30000)
    as [Hgt|Hle].
  - split; [reflexivity|]. split; [reflexivity|].
    split; [intros _; reflexivity | intros Hle; lia].
  - split; [reflexivity|]. split; [reflexivity|].
    split; [intros Hgt; lia | intros _; reflexivity].
Qed.

Lemma advertising_timeout_witness :
  let s := elapse 30001 after_setup in
  BLEJoystick.deviceState (fst s) = BLEJoystick.DEVICE_ADVERTISING
  /\ BLEJoystick.deviceState (fst (final (checkTimers s)))
     = BLEJoystick.DEVICE_IDLE
  /\ result (checkTimers (elapse 30000 after_setup)) = Some tt.
Proof.
  intros s. split; [reflexivity|]. split.
  - rewrite (proj1 (proj2 (proj2 (advertising_timeout s eq_refl))));
      [reflexivity|]. vm_compute. reflexivity.
  - apply (advertising_timeout (elapse 30000 after_setup)). reflexivity.
Defined.

Lemma checkTimers_elsewhere (s : System) :
  BLEJoystick.deviceState (fst s) <> BLEJoystick.DEVICE_IDLE ->
  BLEJoystick.deviceState (fst s) <> BLEJoystick.DEVICE_ADVERTISING ->
  checkTimers s = (Some tt, s, []).
Proof.
  intros Hi Ha. destruct s as [j g]. cbn [fst snd] in *.
  apply Z.eqb_neq in Hi, Ha.
  unfold checkTimers, millis.
  repeat progress (run; cbn [andb]; rewrite ?Hi, ?Ha).
  reflexivity.
Qed.

(** The timer check sends no report, in any state. *)
Lemma checkTimers_reports (s : System) : reports (trace (checkTimers s)) = [].
Proof.
  destruct (Z.eq_dec (BLEJoystick.deviceState (fst s))
              BLEJoystick.DEVICE_IDLE) as [Hi|Hi].
  - rewrite (checkTimers_idle s Hi).
    destruct (_ >? IDLE_TIMEOUT); [rewrite powerOff_run|]; reflexivity.
  - destruct (Z.eq_dec (BLEJoystick.deviceState (fst s))
                BLEJoystick.DEVICE_ADVERTISING) as [Ha|Ha].
    + rewrite (checkTimers_advertising s Ha).
      destruct (_ >? ADVERTISING_TIMEOUT); reflexivity.
    + rewrite (checkTimers_elsewhere s Hi Ha). reflexivity.
Qed.

(** The timer check returns unless the device is Idle. *)
Lemma checkTimers_returns (s : System) :
  BLEJoystick.deviceState (fst s) <> BLEJoystick.DEVICE_IDLE ->
  result (checkTimers s) = Some tt.
Proof.
  intros Hi.
  destruct (Z.eq_dec (BLEJoystick.deviceState (fst s))
              BLEJoystick.DEVICE_ADVERTISING) as [Ha|Ha].
  - rewrite (checkTimers_advertising s Ha).
    destruct (_ >? ADVERTISING_TIMEOUT); reflexivity.
  - rewrite (checkTimers_elsewhere s Hi Ha). reflexivity.
Qed.

(** In Connected, Stopped or any state other than Idle and Advertising
    the timer check does nothing at all; in no state does it send an input
    report; and it ends the program only from Idle. *)
Theorem checkTimers_only_idle_or_advertising :
  forall s : System,
    (BLEJoystick.deviceState (fst s) <> BLEJoystick.DEVICE_IDLE ->
     BLEJoystick.deviceState (fst s) <> BLEJoystick.DEVICE_ADVERTISING ->
     checkTimers s = (Some tt, s, []))
    /\ reports (trace (checkTimers s)) = []
    /\ (result (checkTimers s) = None ->
        BLEJoystick.deviceState (fst s) = BLEJoystick.DEVICE_IDLE).
Proof.
  intros s. split; [apply checkTimers_elsewhere|].
  split; [apply checkTimers_reports|].
  intros Hnone.
  destruct (Z.eq_dec (BLEJoystick.deviceState (fst s))
              BLEJoystick.DEVICE_IDLE) as [Hi|Hi]; [exact Hi|].
  rewrite (checkTimers_returns s Hi) in Hnone. discriminate Hnone.
Qed.

Lemma checkTimers_only_idle_or_advertising_witness :
  checkTimers (elapse 100000 connected)
  = (Some tt, elapse 100000 connected, []).
Proof.
  apply (proj1 (checkTimers_only_idle_or_advertising
                  (elapse 100000 connected)));
    discriminate.
Defined.

(** ** Sampling and edge detection *)

(** [readNESController] returns with position i of [buttonState] true
    exactly when the data line read low at the i-th clock, whatever the
    array held before; it writes the latch pulse and then eight clock
    pulses, and changes nothing else. *)
Theorem readNESController_samples :
  forall (data : nat -> bool) (s : System),
    let o := readNESController data s in
    result o = Some tt
    /\ map (get8 (buttonState (snd (final o)))) (seq 0 8)
       = map (fun i => negb (data i)) (seq 0 8)
    /\ final o = (fst s, set_buttonState (buttonState (snd (final o))) (snd s))
    /\ trace o
       = [DigitalWrite LATCH_PIN HIGH; DigitalWrite LATCH_PIN LOW]
         ++ concat (repeat [DigitalWrite CLK_PIN HIGH; DigitalWrite CLK_PIN LOW] 8)
    /\ length (trace o) = 18%nat.
Proof.
  intros data s o. subst o. rewrite readNESController_run.
  destruct s as [j g]. destruct g. repeat split.
Qed.

(** The comparison loop of [loop] returns true exactly when the new
    snapshot differs from the previous one in some position; afterwards
    the previous snapshot equals the new one, nothing else has changed and
    nothing was sent, so running it again returns false: each change is
    seen once. *)
Theorem detectChange_sees_each_change_once :
  forall s : System,
    let o := detectChange (seq 0 8) false s in
    exists stateChanged : bool,
      result o = Some stateChanged
      /\ (stateChanged = true <->
          buttonState (snd s) <> prevButtonState (snd s))
      /\ final o
         = (fst s, set_prevButtonState (buttonState (snd s)) (snd s))
      /\ prevButtonState (snd (final o)) = buttonState (snd (final o))
      /\ trace o = []
      /\ result (detectChange (seq 0 8) false (final o)) = Some false.
Proof.
  intros s o. subst o. rewrite detectChange_run.
  exists (differ (buttonState (snd s)) (prevButtonState (snd s))).
  cbn [result final trace fst snd].
  split; [reflexivity|]. split.
  { split.
    - intros H E. rewrite E in H.
      assert (X : forall a, differ a a = false).
      { intros [? ? ? ? ? ? ? ?]. unfold differ.
        cbn [at0 at1 at2 at3 at4 at5 at6 at7].
        rewrite !xorb_nilpotent. reflexivity. }
      rewrite X in H. discriminate H.
    - apply differ_true. }
  split; [reflexivity|].
  destruct s as [j g]. destruct g as [cur prev lat ast bl pbl lbc clk].
  split; [reflexivity|]. split; [reflexivity|].
  rewrite detectChange_run. cbn [result fst snd buttonState prevButtonState
    set_prevButtonState]. f_equal.
  destruct cur. unfold differ. cbn [at0 at1 at2 at3 at4 at5 at6 at7].
  rewrite !xorb_nilpotent. reflexivity.
Qed.

(** ** The battery check *)



(** The battery check returns, and touches only the battery bookkeeping:
    it sends no report, calls no callback, gives no advertising command,
    and when the device is not Connected it sends nothing and leaves the
    joystick alone. *)
Lemma checkBattery_frame (percentage : Z) (s : System) :
  exists s' t,
    checkBattery percentage s = (Some tt, s', t)
    /\ battery_only s s'
    /\ reports t = [] /\ callbacks t = [] /\ advertising t = []
    /\ sleeps t = 0%nat
    /\ (BLEJoystick.deviceState (fst s) <> BLEJoystick.DEVICE_CONNECTED ->
        t = [] /\ fst s' = fst s).
Proof.
  destruct s as [j g].
  unfold checkBattery, readBatteryLevel, millis,
    BLEJoystick.setBatteryLevel, BLEJoystick.notifyBatteryLevel, battery_only.
  run.
  destruct (to_uint32 (to_uint32 (clock g) - lastBatteryCheck g) >? 5000);
    run; [|eexists _, _; repeat split].
  cbn [prevBatteryLevel set_batteryLevel].
  destruct (Z.eqb_spec (BLEJoystick.deviceState j)
              BLEJoystick.DEVICE_CONNECTED) as [E|E].
  - destruct (negb (percentage =? prevBatteryLevel g)); cbn [andb]; run.
    + unfold BLEJoystick.set_batteryLevel. cbn [BLEJoystick.deviceState].
      rewrite E. run_states.
      eexists _, _; repeat split; try (destruct g; reflexivity);
        exfalso; auto.
    + eexists _, _; repeat split; destruct g; reflexivity.
  - rewrite andb_false_r. run.
    eexists _, _; repeat split; destruct g; reflexivity.
Qed.

(** ** The whole iteration *)

Lemma bind_assoc {S A B C : Type} (m : M S A) (k : A -> M S B)
      (h : B -> M S C) (s : S) :
  bind (bind m k) h s = bind m (fun a => bind (k a) h) s.
Proof.
  unfold bind. destruct (m s) as [[[a|] s1] t1]; [|reflexivity].
  destruct (k a s1) as [[[b|] s2] t2]; [|reflexivity].
  destruct (h b s2) as [[r s3] t3]. rewrite app_assoc. reflexivity.
Qed.

Lemma bind_ext {S A B : Type} (m : M S A) (k k' : A -> M S B) (s : S) :
  (forall a s1, k a s1 = k' a s1) -> bind m k s = bind m k' s.
Proof.
  intros H. unfold bind. destruct (m s) as [[[a|] s1] t1]; [|reflexivity].
  rewrite H. reflexivity.
Qed.

(** [loop] is [loop_body], then the timer check, then the delay. *)
Lemma loop_body_then_timers (data : nat -> bool) (percentage : Z) (s : System) :
  loop data percentage s
  = (loop_body data percentage ;; checkTimers ;; delay 10) s.
Proof.
  unfold loop, loop_body. symmetry.
  rewrite bind_assoc. apply bind_ext. intros _ s1.
  rewrite bind_assoc. apply bind_ext. intros changed s2.
  rewrite bind_assoc. reflexivity.
Qed.

Lemma updateJoystick_idle (s : System) :
  BLEJoystick.deviceState (fst s) = BLEJoystick.DEVICE_IDLE ->
  updateJoystick s
  = (Some tt,
     (BLEJoystick.set_deviceState BLEJoystick.DEVICE_ADVERTISING (fst s),
      set_advertisingStartTime (to_uint32 (clock (snd s))) (snd s)),
     [AdvertisingStart; CallbackInvoked BLEJoystick.DEVICE_ADVERTISING]).
Proof.
  intros H. destruct s as [j g]. cbn [fst snd] in *.
  unfold updateJoystick, BLEJoystick.startAdvertising,
    BLEJoystick.updateDeviceState, registered, joystickStateCallback, millis.
  run_at H. unfold BLEJoystick.set_deviceState.
  cbn [BLEJoystick.deviceState]. run_states.
  destruct g; reflexivity.
Qed.

Lemma updateJoystick_other (s : System) :
  BLEJoystick.deviceState (fst s) <> BLEJoystick.DEVICE_CONNECTED ->
  BLEJoystick.deviceState (fst s) <> BLEJoystick.DEVICE_IDLE ->
  updateJoystick s = (Some tt, s, []).
Proof.
  intros Hc Hi. destruct s as [j g]. cbn [fst snd] in *.
  apply Z.eqb_neq in Hc, Hi. unfold updateJoystick.
  repeat progress (run; rewrite ?Hc, ?Hi). reflexivity.
Qed.

(** The state and trace of [loop_body]: the snapshot is stored as current
    and previous, then comes what the update step does, then the battery
    bookkeeping. *)
Lemma loop_body_run (data : nat -> bool) (percentage : Z) (s : System) :
  let b := sample data in
  let s2 : System :=
    (fst s, set_prevButtonState b (set_buttonState b (snd s))) in
  forall (s3 : System) (t3 : list Event),
    (if differ b (prevButtonState (snd s)) then updateJoystick else ret tt) s2
    = (Some tt, s3, t3) ->
    exists s4 tb,
      loop_body data percentage s = (Some tt, s4, read_pulses ++ t3 ++ tb)
      /\ checkBattery percentage s3 = (Some tt, s4, tb)
      /\ battery_only s3 s4
      /\ reports tb = [] /\ callbacks tb = [] /\ advertising tb = []
      /\ sleeps tb = 0%nat
      /\ (BLEJoystick.deviceState (fst s3) <> BLEJoystick.DEVICE_CONNECTED ->
          tb = [] /\ fst s4 = fst s3).
Proof.
  intros b s2 s3 t3 R3.
  destruct (checkBattery_frame percentage s3)
    as (s4 & tb & R4 & Hf & Hr & Hc & Ha & Hs & Hn).
  exists s4, tb.
  split; [|split; [exact R4|split; [exact Hf|]]];
    [|repeat split; try assumption; apply Hn; assumption].
  unfold loop_body.
  eapply bind_run; [apply readNESController_run|].
  change (t3 ++ tb) with ([] ++ t3 ++ tb).
  eapply bind_run.
  { rewrite detectChange_run. cbn [fst snd]. reflexivity. }
  fold b. replace (prevButtonState (set_buttonState b (snd s)))
    with (prevButtonState (snd s)) by (destruct s as [j []]; reflexivity).
  replace (buttonState (set_buttonState b (snd s))) with b
    by (destruct s as [j []]; reflexivity).
  eapply bind_run; [exact R3 | exact R4].
Qed.

Lemma differ_same (a : Bool8) : differ a a = false.
Proof.
  destruct a. unfold differ. cbn [at0 at1 at2 at3 at4 at5 at6 at7].
  rewrite !xorb_nilpotent. reflexivity.
Qed.

Lemma differ_false_iff (a b : Bool8) : differ a b = false <-> a = b.
Proof.
  split; [apply differ_false | intros ->; apply differ_same].
Qed.

Lemma loop_from_body (data : nat -> bool) (percentage : Z)
      (s s4 : System) (t4 : list Event) :
  loop_body data percentage s = (Some tt, s4, t4) ->
  loop data percentage s
  = match checkTimers s4 with
    | (Some _, s5, t5) => (Some tt, elapse 10 s5, t4 ++ t5)
    | (None, s5, t5) => (None, s5, t4 ++ t5)
    end.
Proof.
  intros H. rewrite loop_body_then_timers.
  unfold bind at 1. rewrite H.
  unfold bind. destruct (checkTimers s4) as [[[[]|] s5] t5]; [|reflexivity].
  unfold delay, store, modify, elapse. rewrite app_nil_r. reflexivity.
Qed.

Lemma trace_loop_from_body (data : nat -> bool) (percentage : Z)
      (s s4 : System) (t4 : list Event) :
  loop_body data percentage s = (Some tt, s4, t4) ->
  trace (loop data percentage s) = t4 ++ trace (checkTimers s4).
Proof.
  intros H. rewrite (loop_from_body data percentage s s4 t4 H).
  destruct (checkTimers s4) as [[[[]|] s5] t5]; reflexivity.
Qed.

(** The reports of one iteration, by device state and change. *)
Lemma loop_reports :
  forall (data : nat -> bool) (percentage : Z) (s : System),
    reports (trace (loop data percentage s))
    = if (BLEJoystick.deviceState (fst s) =? BLEJoystick.DEVICE_CONNECTED)
         && differ (sample data) (prevButtonState (snd s))
      then [BLEJoystick.report (updated (sample data) (fst s))]
      else [].
Proof.
  intros data percentage s.
  set (b := sample data).
  set (s2 := (fst s, set_prevButtonState b (set_buttonState b (snd s))) : System).
  assert (Hb2 : buttonState (snd s2) = b) by (destruct s as [j []]; reflexivity).
  assert (finish : forall s3 t3,
             (if differ b (prevButtonState (snd s)) then updateJoystick
              else ret tt) s2 = (Some tt, s3, t3) ->
             reports (trace (loop data percentage s)) = reports t3).
  { intros s3 t3 R3.
    destruct (loop_body_run data percentage s s3 t3 R3)
      as (s4 & tb & R & _ & _ & Hr & _).
    rewrite (trace_loop_from_body data percentage s s4 _ R).
    rewrite !reports_app, reports_read_pulses, Hr, checkTimers_reports.
    rewrite !app_nil_r. reflexivity. }
  destruct (differ b (prevButtonState (snd s))) eqn:Ed.
  - destruct (Z.eqb_spec (BLEJoystick.deviceState (fst s))
                BLEJoystick.DEVICE_CONNECTED) as [Hc|Hc]; cbn [andb].
    + rewrite (finish _ _ (updateJoystick_connected s2 Hc)).
      cbn [reports fst s2]. rewrite Hb2. reflexivity.
    + destruct (Z.eq_dec (BLEJoystick.deviceState (fst s))
                  BLEJoystick.DEVICE_IDLE) as [Hi|Hi].
      * rewrite (finish _ _ (updateJoystick_idle s2 Hi)). reflexivity.
      * rewrite (finish _ _ (updateJoystick_other s2 Hc Hi)). reflexivity.
  - rewrite andb_false_r. rewrite (finish s2 [] eq_refl). reflexivity.
Qed.

(** The reports of one iteration, in every state: exactly one report is
    sent when the device is Connected and the sampled snapshot differs
    from the previous one, and it encodes the members as the iteration
    has just written them; in every other case (not Connected, or nothing
    changed) no report is sent, so a press made while the device is not
    Connected is never reported. *)
Theorem loop_reports_changes_when_connected :
  forall (data : nat -> bool) (percentage : Z) (s : System),
    let sent := reports (trace (loop data percentage s)) in
    sent
    = (if (BLEJoystick.deviceState (fst s) =? BLEJoystick.DEVICE_CONNECTED)
          && differ (sample data) (prevButtonState (snd s))
       then [BLEJoystick.report (updated (sample data) (fst s))]
       else [])
    /\ (length sent <= 1)%nat
    /\ (sent <> [] <->
        BLEJoystick.deviceState (fst s) = BLEJoystick.DEVICE_CONNECTED
        /\ sample data <> prevButtonState (snd s)).
Proof.
  intros data percentage s sent. subst sent. rewrite loop_reports.
  split; [reflexivity|].
  destruct (Z.eqb_spec (BLEJoystick.deviceState (fst s))
              BLEJoystick.DEVICE_CONNECTED) as [Hc|Hc]; cbn [andb].
  - destruct (differ (sample data) (prevButtonState (snd s))) eqn:Ed.
    + split; [cbn; lia|]. split; [intros _|discriminate].
      split; [exact Hc|]. intros E. apply differ_false_iff in E. congruence.
    + split; [cbn; lia|]. split; [intros N; contradiction|].
      intros (_ & N). apply differ_false_iff in Ed. contradiction.
  - split; [cbn; lia|]. split; [intros N; contradiction|].
    intros (E & _). contradiction.
Qed.

Lemma report_updated (b : Bool8) (j : BLEJoystick.t) :
  BLEJoystick.axes j = repeat 0 8 ->
  BLEJoystick.report (updated b j)
  = [b2z (get8 b NES_BUTTON_A) + 2 * b2z (get8 b NES_BUTTON_B);
     4 * b2z (get8 b NES_BUTTON_SELECT) + 8 * b2z (get8 b NES_BUTTON_START);
     dpadDirection b; 0; 0].
Proof.
  intros H. unfold BLEJoystick.report, updated, BLEJoystick.setHat,
    BLEJoystick.setButtons. run.
  unfold BLEJoystick.set_buttons, BLEJoystick.set_hat.
  cbn [BLEJoystick.axes BLEJoystick.buttons BLEJoystick.hat].
  rewrite H. destruct b as [a bb se st u d l r].
  destruct a, bb, se, st, u, d, l, r; reflexivity.
Qed.

(** The report the running program sends for a new snapshot while
    Connected: byte 0 carries A and B in bits 0 and 1, byte 1 carries
    Select and Start in bits 2 and 3, byte 2 is the derived hat, and the X
    and Y bytes are 0 whatever directions are held, because [loop] never
    passes its derived axes to the joystick. *)
Theorem loop_report_layout :
  forall (data : nat -> bool) (percentage : Z) (s : System),
    let b := sample data in
    reachable s ->
    BLEJoystick.deviceState (fst s) = BLEJoystick.DEVICE_CONNECTED ->
    b <> prevButtonState (snd s) ->
    reports (trace (loop data percentage s))
    = [[b2z (get8 b NES_BUTTON_A) + 2 * b2z (get8 b NES_BUTTON_B);
        4 * b2z (get8 b NES_BUTTON_SELECT)
        + 8 * b2z (get8 b NES_BUTTON_START);
        dpadDirection b; 0; 0]].
Proof.
  intros data percentage s b Hreach Hc Hne.
  rewrite loop_reports. fold b.
  rewrite Hc, (differ_true b _ Hne). cbn [Z.eqb andb].
  rewrite Z.eqb_refl. cbn [andb].
  rewrite (report_updated b (fst s) (reachable_axes_zero s Hreach)).
  reflexivity.
Qed.

Lemma loop_report_layout_witness :
  axis_x (sample a_up_right_held) = 127
  /\ axis_y (sample a_up_right_held) = -127
  /\ reports (trace (loop a_up_right_held 80 connected)) = [[1; 0; 2; 0; 0]].
Proof.
  split; [reflexivity|]. split; [reflexivity|].
  apply (loop_report_layout a_up_right_held 80 connected).
  - exact reachable_connected.
  - reflexivity.
  - discriminate.
Defined.

(** An iteration ends the program (deep sleep) exactly when the device is
    Idle, the sampled snapshot equals the previous one, and more than
    30000 ms have passed since [lastActivityTime]; in every other case it
    returns.  A button change seen while Idle therefore keeps the device
    awake in that iteration even when the idle timeout has expired. *)
Theorem loop_ends_program_iff :
  forall (data : nat -> bool) (percentage : Z) (s : System),
    result (loop data percentage s) = None
    <-> (BLEJoystick.deviceState (fst s) = BLEJoystick.DEVICE_IDLE
         /\ sample data = prevButtonState (snd s)
         /\ 30000 < to_uint32 (to_uint32 (clock (snd s))
                               - lastActivityTime (snd s))).
Proof.
  intros data percentage s.
  set (b := sample data).
  set (s2 := (fst s, set_prevButtonState b (set_buttonState b (snd s))) : System).
  assert (G2 : lastActivityTime (snd s2) = lastActivityTime (snd s)
               /\ clock (snd s2) = clock (snd s))
    by (destruct s as [j []]; split; reflexivity).
  destruct G2 as [Hlat2 Hclk2].
  (* the result is that of the timer check after the body *)
  assert (finish : forall s3 t3,
             (if differ b (prevButtonState (snd s)) then updateJoystick
              else ret tt) s2 = (Some tt, s3, t3) ->
             exists s4,
               battery_only s3 s4
               /\ result (loop data percentage s) = result (checkTimers s4)).
  { intros s3 t3 R3.
    destruct (loop_body_run data percentage s s3 t3 R3)
      as (s4 & tb & R & _ & Hf & _).
    exists s4. split; [exact Hf|].
    rewrite (loop_from_body data percentage s s4 _ R).
    destruct (checkTimers s4) as [[[[]|] s5] t5]; reflexivity. }
  (* the timer check returns unless the device is Idle *)
  assert (returns : forall s4,
             BLEJoystick.deviceState (fst s4) <> BLEJoystick.DEVICE_IDLE ->
             result (checkTimers s4) <> None).
  { intros s4 Hi.
    destruct (Z.eq_dec (BLEJoystick.deviceState (fst s4))
                BLEJoystick.DEVICE_ADVERTISING) as [Ha|Ha].
    - rewrite (checkTimers_returns s4 Hi). discriminate.
    - rewrite (checkTimers_returns s4 Hi). discriminate. }
  destruct (differ b (prevButtonState (snd s))) eqn:Ed.
  - (* changed: never ends *)
    assert (Hne : ~ (b = prevButtonState (snd s)))
      by (intros E; apply differ_false_iff in E; congruence).
    assert (R : result (loop data percentage s) <> None).
    { destruct (Z.eq_dec (BLEJoystick.deviceState (fst s))
                  BLEJoystick.DEVICE_CONNECTED) as [Hc|Hc].
      - destruct (finish _ _ (updateJoystick_connected s2 Hc))
          as (s4 & (Hst & _) & ->).
        apply returns. rewrite Hst. cbn [fst]. rewrite updated_deviceState.
        cbn [s2 fst]. rewrite Hc. discriminate.
      - destruct (Z.eq_dec (BLEJoystick.deviceState (fst s))
                    BLEJoystick.DEVICE_IDLE) as [Hi|Hi].
        + destruct (finish _ _ (updateJoystick_idle s2 Hi))
            as (s4 & (Hst & _) & ->).
          apply returns. rewrite Hst. discriminate.
        + destruct (finish _ _ (updateJoystick_other s2 Hc Hi))
            as (s4 & (Hst & _) & ->).
          apply returns. rewrite Hst. exact Hi. }
    split; [intros E; contradiction | intros (_ & E & _); contradiction].
  - (* unchanged: the timer check decides *)
    apply differ_false_iff in Ed.
    destruct (finish s2 [] eq_refl)
      as (s4 & (Hst & _ & _ & _ & _ & _ & Hlat & _ & Hclk) & ->).
    rewrite Hlat2 in Hlat. rewrite Hclk2 in Hclk. cbn [s2 fst] in Hst.
    destruct (Z.eq_dec (BLEJoystick.deviceState (fst s))
                BLEJoystick.DEVICE_IDLE) as [Hi|Hi].
    + rewrite (checkTimers_idle s4) by (rewrite Hst; exact Hi).
      rewrite Hlat, Hclk. unfold IDLE_TIMEOUT.
      destruct (Z.gtb_spec
                  (to_uint32 (to_uint32 (clock (snd s))
                              - lastActivityTime (snd s))) 30000) as [Hgt|Hle].
      * rewrite powerOff_run. split; [intros _|reflexivity].
        repeat split; assumption.
      * split; [discriminate | intros (_ & _ & H); lia].
    + split.
      * intros E. exfalso. apply (returns s4); [rewrite Hst; exact Hi|exact E].
      * intros (E & _). contradiction.
Qed.

Lemma loop_ends_program_iff_witness :
  result (loop (fun _ => true) 80 (elapse 30001 idle_since_0)) = None
  /\ result (loop a_held 80 (elapse 30001 idle_since_0)) <> None.
Proof.
  split.
  - apply (loop_ends_program_iff (fun _ => true) 80 (elapse 30001 idle_since_0)).
    split; [reflexivity|]. split; [reflexivity|]. vm_compute. reflexivity.
  - intros E.
    apply (loop_ends_program_iff a_held 80 (elapse 30001 idle_since_0)) in E.
    destruct E as (_ & E & _). discriminate E.
Defined.

(** A button change seen while Idle restarts advertising: the iteration
    returns with the device Advertising, it gave the transport one start
    command, called the callback once, sent no report, did not sleep, and
    the advertising timer starts at the current time; the snapshot itself
    is not reported later either, since it is now the previous one. *)
Theorem loop_wakes_from_idle :
  forall (data : nat -> bool) (percentage : Z) (s : System),
    BLEJoystick.deviceState (fst s) = BLEJoystick.DEVICE_IDLE ->
    sample data <> prevButtonState (snd s) ->
    exists s' t,
      loop data percentage s = (Some tt, s', t)
      /\ BLEJoystick.deviceState (fst s') = BLEJoystick.DEVICE_ADVERTISING
      /\ advertisingStartTime (snd s') = to_uint32 (clock (snd s))
      /\ prevButtonState (snd s') = sample data
      /\ advertising t = [true]
      /\ callbacks t = [BLEJoystick.DEVICE_ADVERTISING]
      /\ reports t = []
      /\ sleeps t = 0%nat.
Proof.
  intros data percentage s Hi Hne.
  set (b := sample data) in *.
  set (s2 := (fst s, set_prevButtonState b (set_buttonState b (snd s))) : System).
  assert (R3 : (if differ b (prevButtonState (snd s)) then updateJoystick
                else ret tt) s2
               = (Some tt,
                  (BLEJoystick.set_deviceState
                     BLEJoystick.DEVICE_ADVERTISING (fst s2),
                   set_advertisingStartTime (to_uint32 (clock (snd s2)))
                     (snd s2)),
                  [AdvertisingStart;
                   CallbackInvoked BLEJoystick.DEVICE_ADVERTISING])).
  { rewrite (differ_true b _ Hne). apply updateJoystick_idle. exact Hi. }
  destruct (loop_body_run data percentage s _ _ R3)
    as (s4 & tb & R & _ & Hf & _ & _ & _ & _ & Hn).
  destruct Hn as [-> Hj]; [discriminate|].
  destruct Hf as (Hst & _ & _ & _ & _ & Hprev & _ & Hast & Hclk).
  cbn [fst snd] in Hst, Hprev, Hast, Hclk, Hj.
  assert (G : clock (snd s2) = clock (snd s)
              /\ prevButtonState (snd s2) = b)
    by (destruct s as [j []]; split; reflexivity).
  destruct G as [Hclk2 Hprev2].
  assert (Hprev4 : prevButtonState (snd s4) = b).
  { rewrite Hprev, <- Hprev2. destruct (snd s2); reflexivity. }
  assert (Hast4 : advertisingStartTime (snd s4) = to_uint32 (clock (snd s))).
  { rewrite Hast, <- Hclk2. destruct (snd s2); reflexivity. }
  assert (Hclk4 : clock (snd s4) = clock (snd s)).
  { rewrite Hclk, <- Hclk2. destruct (snd s2); reflexivity. }
  rewrite (loop_from_body data percentage s s4 _ R).
  rewrite (checkTimers_advertising s4 Hst).
  rewrite Hast4, Hclk4, Z.sub_diag.
  change (to_uint32 0 >? ADVERTISING_TIMEOUT) with false. cbv iota.
  eexists _, _. split; [reflexivity|].
  cbn [elapse fst snd]. rewrite app_nil_r.
  repeat split; assumption.
Qed.

Lemma loop_wakes_from_idle_witness :
  exists s' t,
    loop a_held 80 (elapse 30001 idle_since_0) = (Some tt, s', t)
    /\ BLEJoystick.deviceState (fst s') = BLEJoystick.DEVICE_ADVERTISING
    /\ advertisingStartTime (snd s') = 30001
    /\ prevButtonState (snd s') = a_only
    /\ advertising t = [true]
    /\ callbacks t = [BLEJoystick.DEVICE_ADVERTISING]
    /\ reports t = []
    /\ sleeps t = 0%nat.
Proof.
  apply (loop_wakes_from_idle a_held 80 (elapse 30001 idle_since_0)).
  - reflexivity.
  - discriminate.
Defined.

(** The run of [setup]. *)
Lemma setup_run :
  forall (percentage : Z) (s0 : System),
    let now := to_uint32 (clock (snd s0) + 200) in
    setup percentage s0
    = (Some tt,
       (BLEJoystick.set_deviceState BLEJoystick.DEVICE_ADVERTISING
          BLEJoystick.BLEJoystick,
        set_prevBatteryLevel percentage
          (set_batteryLevel percentage
             (set_advertisingStartTime now
                (set_lastActivityTime now
                   (set_clock (clock (snd s0) + 200) (snd s0)))))),
       [DigitalWrite POWER_KEY_PIN LOW; DigitalWrite POWER_KEY_PIN HIGH;
        CallbackInvoked BLEJoystick.DEVICE_IDLE; DigitalWrite LED0_PIN HIGH;
        AdvertisingStart; CallbackInvoked BLEJoystick.DEVICE_ADVERTISING]).
Proof.
  intros percentage [j0 g] now. subst now. destruct g.
  unfold setup, powerOn, delay, digitalWrite, readBatteryLevel, millis,
    BLEJoystick.start, BLEJoystick.startAdvertising,
    BLEJoystick.updateDeviceState, registered, joystickStateCallback,
    lightOff, digitalWrite, millis.
  cbn [fst snd]. run_states. reflexivity.
Qed.

(** [setup], from any globals: it returns with a freshly constructed
    joystick that is Advertising; on the way the power key was pulsed, the
    callback was called for Idle and then for Advertising, advertising was
    started once, and nothing was notified; the battery reading is stored
    as current and as last notified, and both timers hold the time after
    the 200 ms power-on pulse. *)
Theorem setup_leaves_device_advertising :
  forall (percentage : Z) (s0 : System),
    let o := setup percentage s0 in
    let now := to_uint32 (clock (snd s0) + 200) in
    result o = Some tt
    /\ fst (final o)
       = BLEJoystick.set_deviceState BLEJoystick.DEVICE_ADVERTISING
           BLEJoystick.BLEJoystick
    /\ BLEJoystick.deviceState (fst (final o)) = BLEJoystick.DEVICE_ADVERTISING
    /\ callbacks (trace o)
       = [BLEJoystick.DEVICE_IDLE; BLEJoystick.DEVICE_ADVERTISING]
    /\ advertising (trace o) = [true]
    /\ reports (trace o) = []
    /\ Forall (fun e => forall level, e <> BatteryNotify level) (trace o)
    /\ batteryLevel (snd (final o)) = percentage
    /\ prevBatteryLevel (snd (final o)) = percentage
    /\ lastActivityTime (snd (final o)) = now
    /\ advertisingStartTime (snd (final o)) = now
    /\ clock (snd (final o)) = clock (snd s0) + 200.
Proof.
  intros percentage s0 o now. subst o now. rewrite setup_run.
  cbn [result final trace fst snd].
  repeat match goal with |- _ /\ _ => split end;
    try reflexivity; try (destruct (snd s0); reflexivity).
  repeat constructor; intros level; discriminate.
Qed.

(** ** What the running program keeps and sends *)

Section Sound.

Context {S : Type} (I : S -> Prop) (Q : Event -> Prop).

Lemma sound_ret {A : Type} (a : A) : sound I Q (ret a).
Proof.
  intros s r s' t E H. injection E as _ <- <-. split; [exact H|constructor].
Qed.

Lemma sound_gets {A : Type} (f : S -> A) : sound I Q (gets f).
Proof.
  intros s r s' t E H. injection E as _ <- <-. split; [exact H|constructor].
Qed.

Lemma sound_emit (e : Event) : Q e -> sound I Q (emit e).
Proof.
  intros He s r s' t E H. injection E as _ <- <-.
  split; [exact H | constructor; [exact He | constructor]].
Qed.

Lemma sound_modify (f : S -> S) :
  (forall s, I s -> I (f s)) -> sound I Q (modify f).
Proof.
  intros Hf s r s' t E H. injection E as _ <- <-.
  split; [apply Hf, H | constructor].
Qed.

Lemma sound_bind {A B : Type} (m : M S A) (k : A -> M S B) :
  sound I Q m -> (forall a, sound I Q (k a)) -> sound I Q (bind m k).
Proof.
  intros Hm Hk s r s' t E H. unfold bind in E.
  destruct (m s) as [[[a|] s1] t1] eqn:Em.
  - destruct (k a s1) as [[r2 s2] t2] eqn:Ek. injection E as _ <- <-.
    destruct (Hm s (Some a) s1 t1 Em H) as [H1 F1].
    destruct (Hk a s1 r2 s2 t2 Ek H1) as [H2 F2].
    split; [exact H2 | apply Forall_app; split; assumption].
  - injection E as _ <- <-. exact (Hm s None s1 t1 Em H).
Qed.

Lemma sound_forM_ {A : Type} (l : list A) (body : A -> M S unit) :
  (forall a, sound I Q (body a)) -> sound I Q (forM_ l body).
Proof.
  intros Hb. induction l as [|a l IH]; cbn [forM_].
  - apply sound_ret.
  - apply sound_bind; [apply Hb | intros _; exact IH].
Qed.

End Sound.

Create HintDb sound.

(** Decomposes a [sound] goal along the structure of the code; what
    remains are the calls with a lemma of their own. *)
Ltac sound_step :=
  first
    [ assumption
    | solve [auto with sound]
    | apply sound_ret | apply sound_gets
    | apply sound_emit; exact I
    | apply sound_modify; intros [? ?] ?; assumption
    | apply sound_bind; [|intros ?]
    | apply sound_forM_; intros ?
    | match goal with
      | |- sound _ _ (if ?b then _ else _) => destruct b
      end ].

Ltac sound_all := repeat sound_step.

Lemma well_formed_set_deviceState (n : Z) (j : BLEJoystick.t) :
  n = BLEJoystick.DEVICE_IDLE \/ n = BLEJoystick.DEVICE_ADVERTISING
  \/ n = BLEJoystick.DEVICE_CONNECTED ->
  well_formed j -> well_formed (BLEJoystick.set_deviceState n j).
Proof.
  intros Hn (_ & Hb & Hh & Ha & Hbt).
  split; [exact Hn|]. split; [exact Hb|]. split; [exact Hh|].
  split; [exact Ha | exact Hbt].
Qed.

Lemma well_formed_set_hat (h : Z) (j : BLEJoystick.t) :
  0 <= h ->
  well_formed j ->
  well_formed (BLEJoystick.set_hat (if h <=? 8 then h else 0) j).
Proof.
  intros H0 (Hs & Hb & _ & Ha & Hbt).
  split; [exact Hs|]. split; [exact Hb|]. split; [|split; assumption].
  cbn [BLEJoystick.hat BLEJoystick.set_hat].
  destruct (Z.leb_spec h 8); lia.
Qed.

Lemma well_formed_set_batteryLevel (b : Z) (j : BLEJoystick.t) :
  well_formed j ->
  well_formed
    (BLEJoystick.set_batteryLevel
       (if to_uint8 b >? 100 then 100 else to_uint8 b) j).
Proof.
  intros (Hs & _ & Hh & Ha & Hbt).
  split; [exact Hs|]. split; [apply clamp_percentage|].
  split; [exact Hh|]. split; [exact Ha | exact Hbt].
Qed.

Lemma well_formed_set_buttons (a b select start : bool) (j : BLEJoystick.t) :
  well_formed j ->
  well_formed
    (BLEJoystick.set_buttons
       [BLEJoystick.or_bit false 7 (BLEJoystick.or_bit false 6
          (BLEJoystick.or_bit false 5 (BLEJoystick.or_bit false 4
            (BLEJoystick.or_bit false 3 (BLEJoystick.or_bit false 2
              (BLEJoystick.or_bit b 1 (BLEJoystick.or_bit a 0 0)))))));
        BLEJoystick.or_bit start 3 (BLEJoystick.or_bit select 2
          (BLEJoystick.or_bit false 1 (BLEJoystick.or_bit false 0 0)))] j).
Proof.
  intros (Hs & Hb & Hh & Ha & _).
  split; [exact Hs|]. split; [exact Hb|]. split; [exact Hh|].
  split; [exact Ha|].
  eexists _, _. split; [reflexivity|].
  destruct a, b, select, start; vm_compute; intuition congruence.
Qed.

Lemma sound_assign (f : BLEJoystick.t -> BLEJoystick.t) :
  (forall j, well_formed j -> well_formed (f j)) ->
  sound inv sendable (BLEJoystick.assign f).
Proof.
  intros Hf. unfold BLEJoystick.assign. apply sound_modify.
  intros [j g] H. apply Hf, H.
Qed.

Lemma sound_store (f : Globals -> Globals) : sound inv sendable (store f).
Proof. unfold store. sound_all. Qed.

Lemma sound_millis : sound inv sendable millis.
Proof. unfold millis, global. sound_all. Qed.

Lemma sound_digitalWrite (pin : Z) (level : bool) :
  sound inv sendable (digitalWrite pin level).
Proof. unfold digitalWrite. sound_all. Qed.

Lemma sound_powerOff : sound inv sendable powerOff.
Proof.
  intros s r s' t E H. rewrite powerOff_run in E. injection E as _ <- <-.
  split; [exact H|]. repeat constructor.
Qed.

Lemma sound_setHat (h : Z) :
  0 <= h -> sound inv sendable (BLEJoystick.setHat h).
Proof.
  intros H. unfold BLEJoystick.setHat. apply sound_assign.
  intros j. apply well_formed_set_hat. exact H.
Qed.

Lemma sound_setButtons (a b select start : bool) :
  sound inv sendable
    (BLEJoystick.setButtons a b false false false false false false
       false false select start).
Proof.
  unfold BLEJoystick.setButtons. apply sound_assign.
  intros j. apply well_formed_set_buttons.
Qed.

Lemma sound_setBatteryLevel (b : Z) :
  sound inv sendable (BLEJoystick.setBatteryLevel (to_uint8 b)).
Proof.
  unfold BLEJoystick.setBatteryLevel. apply sound_assign.
  intros j. apply well_formed_set_batteryLevel.
Qed.

(** A well-formed joystick encodes a sendable report. *)
Lemma well_formed_report (j : BLEJoystick.t) :
  well_formed j -> sendable (InputNotify (BLEJoystick.report j)).
Proof.
  intros (_ & _ & Hh & Ha & b0 & b1 & Hbt & H0 & H1).
  unfold BLEJoystick.report. rewrite Hbt, Ha.
  exists b0, b1, (BLEJoystick.hat j).
  split; [|repeat split; assumption || lia].
  cbn [nth repeat]. unfold to_uint8. rewrite land_15_mod.
  rewrite (Z.mod_small (BLEJoystick.hat j) 16) by lia.
  rewrite (Z.mod_small (BLEJoystick.hat j) 256) by lia.
  reflexivity.
Qed.

Lemma sound_notifyHIDReport : sound inv sendable BLEJoystick.notifyHIDReport.
Proof.
  intros s r s' t E H.
  destruct (Z.eq_dec (BLEJoystick.deviceState (fst s))
              BLEJoystick.DEVICE_CONNECTED) as [C|C].
  - rewrite (notifyHIDReport_connected s C) in E. injection E as _ <- <-.
    split; [exact H|]. constructor; [|constructor].
    apply well_formed_report. exact H.
  - rewrite (notifyHIDReport_other s C) in E. injection E as _ <- <-.
    split; [exact H | constructor].
Qed.

Lemma sound_notifyBatteryLevel :
  sound inv sendable BLEJoystick.notifyBatteryLevel.
Proof.
  intros s r s' t E H.
  destruct (Z.eq_dec (BLEJoystick.deviceState (fst s))
              BLEJoystick.DEVICE_CONNECTED) as [C|C].
  - rewrite (notifyBatteryLevel_connected s C) in E. injection E as _ <- <-.
    split; [exact H|]. constructor; [|constructor].
    destruct H as (_ & Hb & _). exact Hb.
  - rewrite (notifyBatteryLevel_other s C) in E. injection E as _ <- <-.
    split; [exact H | constructor].
Qed.

#[local] Hint Resolve sound_store sound_millis sound_digitalWrite
  sound_powerOff sound_setButtons sound_setBatteryLevel
  sound_notifyHIDReport sound_notifyBatteryLevel : sound.

Lemma sound_joystickStateCallback : sound inv sendable joystickStateCallback.
Proof.
  unfold joystickStateCallback, BLEJoystick.getState, BLEJoystick.this,
    lightOn, lightOff, global.
  sound_all.
Qed.

Lemma sound_updateDeviceState (n : Z) :
  n = BLEJoystick.DEVICE_IDLE \/ n = BLEJoystick.DEVICE_ADVERTISING
  \/ n = BLEJoystick.DEVICE_CONNECTED ->
  sound inv sendable (BLEJoystick.updateDeviceState registered n).
Proof.
  intros Hn. pose proof sound_joystickStateCallback.
  unfold BLEJoystick.updateDeviceState, BLEJoystick.this, registered.
  apply sound_bind; [sound_all|]. intros st.
  destruct (negb (st =? n)); [|sound_all].
  apply sound_bind; [|intros ?; sound_all].
  apply sound_assign. intros j. apply well_formed_set_deviceState. exact Hn.
Qed.

Lemma sound_startAdvertising :
  sound inv sendable (BLEJoystick.startAdvertising registered).
Proof.
  pose proof (sound_updateDeviceState BLEJoystick.DEVICE_ADVERTISING
                (or_intror (or_introl eq_refl))).
  unfold BLEJoystick.startAdvertising, BLEJoystick.this. sound_all.
Qed.

Lemma sound_stopAdvertising :
  sound inv sendable (BLEJoystick.stopAdvertising registered).
Proof.
  pose proof (sound_updateDeviceState BLEJoystick.DEVICE_IDLE
                (or_introl eq_refl)).
  unfold BLEJoystick.stopAdvertising, BLEJoystick.this. sound_all.
Qed.

Lemma sound_readNESController (data : nat -> bool) :
  sound inv sendable (readNESController data).
Proof. unfold readNESController. sound_all. Qed.

Lemma sound_detectChange (l : list nat) (c : bool) :
  sound inv sendable (detectChange l c).
Proof.
  revert c. induction l as [|i l IH]; intros c; cbn [detectChange].
  - apply sound_ret.
  - unfold global. sound_all.
Qed.

Lemma sound_updateJoystick : sound inv sendable updateJoystick.
Proof.
  pose proof sound_startAdvertising.
  unfold updateJoystick, BLEJoystick.getState, BLEJoystick.this, global.
  apply sound_bind; [sound_all|]. intros b.
  pose proof (sound_setHat (dpadDirection b) (proj1 (dpadDirection_range b))).
  sound_all.
Qed.

Lemma sound_checkBattery (percentage : Z) :
  sound inv sendable (checkBattery percentage).
Proof.
  unfold checkBattery, readBatteryLevel, BLEJoystick.getState,
    BLEJoystick.this, global.
  sound_all.
Qed.

Lemma sound_checkTimers : sound inv sendable checkTimers.
Proof.
  pose proof sound_stopAdvertising.
  unfold checkTimers, lightOff, BLEJoystick.getState, BLEJoystick.this, global.
  sound_all.
Qed.

Lemma sound_loop (data : nat -> bool) (percentage : Z) :
  sound inv sendable (loop data percentage).
Proof.
  pose proof (sound_readNESController data).
  pose proof (sound_detectChange (seq 0 8) false).
  pose proof sound_updateJoystick.
  pose proof (sound_checkBattery percentage).
  pose proof sound_checkTimers.
  unfold loop, delay. sound_all.
Qed.

Lemma reachable_inv (s : System) : reachable s -> inv s.
Proof.
  induction 1 as [p s t E | data p s s' t _ IH E | s s' t _ IH E
                 | s s' t _ IH E | ms s _ IH _].
  - rewrite setup_run in E. injection E as <- _.
    unfold inv, well_formed. cbn. repeat split; try lia.
    exists 0, 0. repeat split; lia.
  - exact (proj1 (sound_loop data p s _ s' t E IH)).
  - exact (proj1 (sound_updateDeviceState _
                    (or_intror (or_intror eq_refl)) s _ s' t E IH)).
  - exact (proj1 (sound_updateDeviceState _ (or_introl eq_refl) s _ s' t E IH)).
  - exact IH.
Qed.

(** In every state the running program reaches, the device is Idle,
    Advertising or Connected (never Stopped again), the stored battery
    level is a percentage, the hat is a direction 0..8, the axes are zero
    and only buttons 1, 2, 11 and 12 can be set; and whatever an iteration
    of [loop] or a transport event then hands to the transport is well
    formed: battery levels within 0..100 and five-byte reports with those
    buttons, a hat within 0..8 and zero X and Y, also when the iteration
    ends in deep sleep. *)
Theorem program_keeps_members_and_sends_well_formed :
  forall s : System,
    reachable s ->
    well_formed (fst s)
    /\ (forall (data : nat -> bool) (percentage : Z),
           Forall sendable (trace (loop data percentage s))
           /\ well_formed (fst (final (loop data percentage s))))
    /\ Forall sendable (trace (BLEJoystick.onConnect registered s))
    /\ Forall sendable (trace (BLEJoystick.onDisconnect registered s)).
Proof.
  intros s Hreach. pose proof (reachable_inv s Hreach) as Hinv.
  split; [exact Hinv|]. split; [|split].
  - intros data p.
    destruct (loop data p s) as [[r s'] t] eqn:E.
    destruct (sound_loop data p s r s' t E Hinv) as [H1 H2].
    split; assumption.
  - destruct (BLEJoystick.onConnect registered s) as [[r s'] t] eqn:E.
    exact (proj2 (sound_updateDeviceState _ (or_intror (or_intror eq_refl))
                    s r s' t E Hinv)).
  - destruct (BLEJoystick.onDisconnect registered s) as [[r s'] t] eqn:E.
    exact (proj2 (sound_updateDeviceState _ (or_introl eq_refl)
                    s r s' t E Hinv)).
Qed.

Lemma program_keeps_members_and_sends_well_formed_witness :
  reachable connected
  /\ well_formed (fst connected)
  /\ Forall sendable (trace (loop a_up_right_held 80 connected)).
Proof.
  split; [exact reachable_connected|].
  split.
  - apply (program_keeps_members_and_sends_well_formed connected).
    exact reachable_connected.
  - apply (program_keeps_members_and_sends_well_formed connected
             reachable_connected).
Defined.

(** ** Further concrete runs *)

Lemma setBatteryLevel_percentage_witness :
  BLEJoystick.batteryLevel
    (fst (final (BLEJoystick.setBatteryLevel (to_uint8 42) connected))) = 42
  /\ BLEJoystick.batteryLevel
       (fst (final (BLEJoystick.setBatteryLevel (to_uint8 200) connected)))
     = 100
  /\ BLEJoystick.batteryLevel
       (fst (final (BLEJoystick.setBatteryLevel (to_uint8 (-1)) connected)))
     = 100.
Proof.
  split; [|split].
  - destruct (setBatteryLevel_percentage 42 connected)
      as (_ & _ & _ & H & _).
    apply H. lia.
  - destruct (setBatteryLevel_percentage 200 connected)
      as (_ & _ & _ & _ & H & _).
    apply H. lia.
  - destruct (setBatteryLevel_percentage (-1) connected)
      as (_ & _ & _ & _ & _ & H & _).
    apply H. lia.
Defined.

